(** * A shallow embedding of the VolcAIGCToolBoard gateway core

    Python values are modelled as follows:
    - [bytes] as [string] (one [ascii] per byte);
    - [str] as [list Z] (a list of Unicode code points);
    - a [dict] as an association list in insertion order, updated in place
      by [py_set] the way [d[k] = v] does;
    - JSON-like response payloads as [json];
    - the outcome of a subprocess or a remote call as an explicit input
      supplied by the environment, and every call it makes as a logged
      event, so that the number of storage writes or requests can be
      counted. *)

From Stdlib Require Import String Ascii List ZArith Bool Lia.
Import ListNotations.
Set Warnings "-register-all".
Open Scope list_scope.
Open Scope string_scope.

(** ** Python dictionaries *)

Module PyDict.

Section Dict.
Context {K V : Type} (eqK : K -> K -> bool).

(** [d.get(k)] *)
Fixpoint py_get (d : list (K * V)) (k : K) : option V :=
  match d with
  | [] => None
  | (k', v) :: d' => if eqK k' k then Some v else py_get d' k
  end.

(** [d[k] = v]: replace in place when the key is present, append otherwise *)
Fixpoint py_set (d : list (K * V)) (k : K) (v : V) : list (K * V) :=
  match d with
  | [] => [(k, v)]
  | (k', v') :: d' =>
      if eqK k' k then (k', v) :: d' else (k', v') :: py_set d' k v
  end.

End Dict.

End PyDict.

Import PyDict.

(** ** JSON values, as built by the handlers and dumped with [json.dumps] *)

Inductive json : Type :=
| JNull
| JBool (b : bool)
| JNum (repr : string)
| JStr (s : string)
| JList (l : list json)
| JObj (fields : list (string * json)).

Definition jget (o : list (string * json)) (k : string) : option json :=
  py_get String.eqb o k.

(** ** src/modules/tos_utils.py: TOSUploader *)

Module Tos.

(** Result of [subprocess.run]: return code 0, a non-zero return code with
    its stderr, or an exception raised by [subprocess.run] itself
    (e.g. [TimeoutExpired]). *)
Inductive proc_outcome : Type :=
| ProcOk
| ProcFail (stderr : string)
| ProcRaise (msg : string).

Record uploader : Type := {
  bucket : string;
  region : string;
  enable_cache : bool;
  tosutil_path : string
}.

Definition base_url (u : uploader) : string :=
  "https://" ++ bucket u ++ ".tos-" ++ region u ++ ".volces.com".

(** The process-wide mutable state of one uploader: [self.upload_cache]
    (meaningful only when [enable_cache] holds) and the log of every
    tosutil command line that has been run. *)
Record tos_state : Type := {
  upload_cache : list (string * string);
  commands : list (list string)
}.

(** What the outside world answers during one call: the timestamp
    [datetime.now()] formats to, whether writing the temporary file raises,
    the outcome of each tosutil command line, and whether the clean-up
    [os.unlink(temp_file_path)] of the [finally] clause raises ([None] also
    covers a temporary file that no longer exists). *)
Record env : Type := {
  now : string;
  temp_write : option string;
  run : list string -> proc_outcome;
  cleanup : option string
}.

Section Upload.

(** [hashlib.md5(data).hexdigest()] *)
Variable md5_hexdigest : string -> string.

Definition cp_cmd (u : uploader) (unique_filename : string) : list string :=
  [tosutil_path u; "cp"; "<temp_file_path>";
   "tos://" ++ bucket u ++ "/" ++ unique_filename].

Definition acl_cmd (u : uploader) (unique_filename : string) : list string :=
  [tosutil_path u; "set-acl";
   "tos://" ++ bucket u ++ "/" ++ unique_filename; "public-read"].

Definition unique_filename_of (e : env) (file_content filename : string)
  : string :=
  let file_hash := substring 0 8 (md5_hexdigest file_content) in
  now e ++ "_" ++ file_hash ++ "_" ++ filename.

Definition exc_result (msg : string) : list (string * json) :=
  [("success", JBool false);
   ("error", JStr ("上传过程中发生错误: " ++ msg))].

Definition log_cmd (st : tos_state) (c : list string) : tos_state :=
  {| upload_cache := upload_cache st; commands := (commands st ++ [c])%list |}.

(** The inner [try] block of [TOSUploader.upload_file], once the temporary
    file is written: the result it returns (an exception being turned into
    [exc_result] by the outer handler) and the new state. *)
Definition upload_try (u : uploader) (e : env) (st : tos_state)
    (unique_filename cache_key : string) (set_public_read : bool)
  : list (string * json) * tos_state :=
  let c := cp_cmd u unique_filename in
  let st1 := log_cmd st c in
  match run e c with
  | ProcRaise msg => (exc_result msg, st1)
  | ProcFail stderr =>
      ([("success", JBool false);
        ("error", JStr ("上传失败: " ++ stderr))], st1)
  | ProcOk =>
      let acl :=
        if set_public_read then
          let a := acl_cmd u unique_filename in
          (Some (run e a), log_cmd st1 a)
        else (None, st1) in
      match acl with
      | (Some (ProcRaise msg), st2) => (exc_result msg, st2)
      | (_, st2) =>
          (* a failed set-acl is only printed as a warning *)
          let file_url := base_url u ++ "/" ++ unique_filename in
          let st3 :=
            if enable_cache u then
              {| upload_cache := py_set String.eqb (upload_cache st2)
                                   cache_key file_url;
                 commands := commands st2 |}
            else st2 in
          ([("success", JBool true); ("url", JStr file_url);
            ("cached", JBool false)], st3)
      end
  end.

(** [TOSUploader.upload_file]: returns the result dict and the new state.
    An exception of the [finally] clause replaces what the [try] block
    returned or raised, and is turned into [exc_result] by the outer
    handler; the state changes made before it stay. *)
Definition upload_file (u : uploader) (e : env) (st : tos_state)
    (file_content filename : string) (set_public_read : bool)
  : list (string * json) * tos_state :=
  let unique_filename := unique_filename_of e file_content filename in
  let cache_key := md5_hexdigest file_content in
  match (if enable_cache u then py_get String.eqb (upload_cache st) cache_key
         else None) with
  | Some url =>
      ([("success", JBool true); ("url", JStr url); ("cached", JBool true)], st)
  | None =>
      match temp_write e with
      | Some msg => (exc_result msg, st)
      | None =>
          let (res, st') := upload_try u e st unique_filename cache_key set_public_read in
          match cleanup e with
          | Some msg => (exc_result msg, st')
          | None => (res, st')
          end
      end
  end.

End Upload.

(** Number of storage writes ([tosutil cp]) in a command log. *)
Definition is_cp (c : list string) : bool :=
  match c with
  | _ :: op :: _ => String.eqb op "cp"
  | _ => false
  end.

Definition storage_writes (log : list (list string)) : nat :=
  length (filter is_cp log).

End Tos.

(** ** Python [str] and [bytes] primitives used by the multipart decoders *)

Module Py.

Open Scope Z_scope.

Fixpoint zs_eqb (a b : list Z) : bool :=
  match a, b with
  | [], [] => true
  | x :: a', y :: b' => Z.eqb x y && zs_eqb a' b'
  | _, _ => false
  end.

(** An ASCII literal as a [str]. *)
Definition str (s : string) : list Z :=
  map (fun c => Z.of_nat (nat_of_ascii c)) (list_ascii_of_string s).

(** The bytes of a [bytes] object as integers. *)
Definition byte_vals (s : string) : list Z := str s.

Definition bytes_of (l : list Z) : string :=
  string_of_list_ascii (map (fun z => ascii_of_nat (Z.to_nat z)) l).

Fixpoint zs_prefix (p l : list Z) : bool :=
  match p, l with
  | [], _ => true
  | x :: p', y :: l' => Z.eqb x y && zs_prefix p' l'
  | _ :: _, [] => false
  end.

(** [sub in s] for [str] *)
Fixpoint zs_contains (sub l : list Z) : bool :=
  zs_prefix sub l ||
  match l with
  | [] => false
  | _ :: l' => zs_contains sub l'
  end.

Fixpoint take_while (p : Z -> bool) (l : list Z) : list Z * list Z :=
  match l with
  | x :: l' => if p x then let (a, b) := take_while p l' in (x :: a, b)
               else ([], l)
  | [] => ([], [])
  end.

(** [re.search(pattern, s).group(1)] for a pattern made of a literal, a
    group holding one repeated character class, and an optional closing
    character:
    the first position where the literal occurs and is followed by a run
    of characters of the class (non-empty when [plus]), itself followed by
    the closing character when there is one. The class is a character
    class of the form [[^...]], so its greedy run is the maximal one and
    backtracking cannot produce another match at the same position. *)
Fixpoint re_search_group (lit : list Z) (cls : Z -> bool) (plus : bool)
    (close : option Z) (s : list Z) : option (list Z) :=
  let here :=
    if zs_prefix lit s then
      let (run, rest) := take_while cls (skipn (length lit) s) in
      if plus && (length run =? 0)%nat then None
      else match close, rest with
           | None, _ => Some run
           | Some q, c :: _ => if Z.eqb c q then Some run else None
           | Some _, [] => None
           end
    else None in
  match here with
  | Some g => Some g
  | None =>
      match s with
      | [] => None
      | _ :: s' => re_search_group lit cls plus close s'
      end
  end.

(** [\s] on [str]: the Unicode whitespace code points. Header values reach
    the handlers decoded as ISO-8859-1, so only code points below 256 can
    occur; the larger ones are listed for completeness. *)
Definition is_space (c : Z) : bool :=
  ((9 <=? c) && (c <=? 13)) || ((28 <=? c) && (c <=? 32)) ||
  (c =? 133) || (c =? 160) || (c =? 5760) ||
  ((8192 <=? c) && (c <=? 8202)) || (c =? 8232) || (c =? 8233) ||
  (c =? 8239) || (c =? 8287) || (c =? 12288).

(** [s.strip(q)] where [q] is the double-quote character *)
Definition strip_quotes (s : list Z) : list Z :=
  let drop := fix d (l : list Z) := match l with
                                    | c :: l' => if c =? 34 then d l' else l
                                    | [] => [] end in
  rev (drop (rev (drop s))).

(** [s.encode('utf-8')]; [None] is the [UnicodeEncodeError] raised for a
    surrogate code point. *)
Definition utf8_char (c : Z) : option (list Z) :=
  if (c <? 0) || (1114111 <? c) || ((55296 <=? c) && (c <=? 57343)) then None
  else if c <? 128 then Some [c]
  else if c <? 2048 then
    Some [192 + Z.shiftr c 6; 128 + Z.land c 63]
  else if c <? 65536 then
    Some [224 + Z.shiftr c 12; 128 + Z.land (Z.shiftr c 6) 63;
          128 + Z.land c 63]
  else
    Some [240 + Z.shiftr c 18; 128 + Z.land (Z.shiftr c 12) 63;
          128 + Z.land (Z.shiftr c 6) 63; 128 + Z.land c 63].

Fixpoint utf8_encode (s : list Z) : option string :=
  match s with
  | [] => Some ""
  | c :: s' =>
      match utf8_char c, utf8_encode s' with
      | Some bs, Some rest => Some (bytes_of bs ++ rest)
      | _, _ => None
      end
  end.

Definition in_range (lo hi c : Z) : bool := (lo <=? c) && (c <=? hi).
Definition is_cont (c : Z) : bool := in_range 128 191 c.

(** One well-formed UTF-8 sequence with a non-ASCII lead byte [b0]
    (Unicode Table 3-7): its code point and the remaining bytes. *)
Definition utf8_seq (b0 : Z) (r : list Z) : option (Z * list Z) :=
  match r with
  | b1 :: r1 =>
      if in_range 194 223 b0 && is_cont b1 then
        Some (Z.shiftl (b0 - 192) 6 + (b1 - 128), r1)
      else
        let ok2 :=
          (Z.eqb b0 224 && in_range 160 191 b1) ||
          ((in_range 225 236 b0 || in_range 238 239 b0) && is_cont b1) ||
          (Z.eqb b0 237 && in_range 128 159 b1) in
        let ok3 :=
          (Z.eqb b0 240 && in_range 144 191 b1) ||
          (in_range 241 243 b0 && is_cont b1) ||
          (Z.eqb b0 244 && in_range 128 143 b1) in
        match r1 with
        | b2 :: r2 =>
            if ok2 && is_cont b2 then
              Some (Z.shiftl (b0 - 224) 12 + Z.shiftl (b1 - 128) 6 + (b2 - 128),
                    r2)
            else if ok3 && is_cont b2 then
              match r2 with
              | b3 :: r3 =>
                  if is_cont b3 then
                    Some (Z.shiftl (b0 - 240) 18 + Z.shiftl (b1 - 128) 12 +
                          Z.shiftl (b2 - 128) 6 + (b3 - 128), r3)
                  else None
              | [] => None
              end
            else None
        | [] => None
        end
  | [] => None
  end.

(** [b.decode('utf-8', errors='ignore')]: an invalid byte is dropped and
    decoding resumes at the next byte. Dropping a whole maximal invalid
    subpart gives the same result, since its later bytes are continuation
    bytes, none of which starts a sequence. *)
Fixpoint utf8_decode_go (fuel : nat) (l : list Z) : list Z :=
  match fuel with
  | O => []
  | S f =>
      match l with
      | [] => []
      | b0 :: r =>
          if b0 <? 128 then b0 :: utf8_decode_go f r
          else match utf8_seq b0 r with
               | Some (c, r') => c :: utf8_decode_go f r'
               | None => utf8_decode_go f r
               end
      end
  end.

Definition decode_ignore (b : string) : list Z :=
  let l := byte_vals b in utf8_decode_go (length l) l.

Close Scope Z_scope.

(** [s.split(sep)] on [bytes]; [None] is the [ValueError] for an empty
    separator. *)
Fixpoint split_go (fuel : nat) (sep s : string) : list string :=
  match fuel with
  | O => [s]
  | S f =>
      match index 0 sep s with
      | None => [s]
      | Some i =>
          substring 0 i s ::
          split_go f sep (substring (i + String.length sep) (String.length s - i - String.length sep) s)
      end
  end.

Definition py_split (s sep : string) : option (list string) :=
  match sep with
  | EmptyString => None
  | _ => Some (split_go (S (String.length s)) sep s)
  end.

(** [s.split(sep, 1)] when [sep in s] *)
Definition split_once (s sep : string) : option (string * string) :=
  match index 0 sep s with
  | None => None
  | Some i =>
      Some (substring 0 i s,
            substring (i + String.length sep) (String.length s - i - String.length sep) s)
  end.

(** [s.rstrip(chars)] on [bytes] *)
Definition rstrip (chars : ascii -> bool) (s : string) : string :=
  let drop := fix d (l : list ascii) := match l with
                                        | c :: l' => if chars c then d l' else l
                                        | [] => [] end in
  string_of_list_ascii (rev (drop (rev (list_ascii_of_string s)))).

Definition is_crlf (c : ascii) : bool :=
  Ascii.eqb c "010"%char || Ascii.eqb c "013"%char.

(** [bytes.strip()] strips the ASCII whitespace bytes. *)
Definition is_bytes_space (c : ascii) : bool :=
  let n := nat_of_ascii c in
  (Nat.eqb n 32 || ((9 <=? n) && (n <=? 13)))%nat.

Definition bytes_strip_empty (s : string) : bool :=
  forallb is_bytes_space (list_ascii_of_string s).

Definition CRLF : string := String "013"%char (String "010"%char "").
Definition CRLFCRLF : string := CRLF ++ CRLF.

End Py.

(** ** The multipart decoders *)

Module Multipart.

Import Py.

(** [{'content': ..., 'filename': ...}] *)
Record mfield : Type := {
  content : string;
  filename : option (list Z)
}.

Definition form := list (list Z * list mfield).

Definition boundary_re (s : list Z) : option (list Z) :=
  re_search_group (str "boundary=")
    (fun c => negb (Z.eqb c 59 || is_space c)) true None s.

Definition name_re (s : list Z) : option (list Z) :=
  re_search_group (str "name=" ++ [34%Z])%list
    (fun c => negb (Z.eqb c 34)) true (Some 34%Z) s.

Definition filename_re (s : list Z) : option (list Z) :=
  re_search_group (str "filename=" ++ [34%Z])%list
    (fun c => negb (Z.eqb c 34)) true (Some 34%Z) s.

(** The loop body of [TextToVideoModule.parse_multipart_form_data]. *)
Definition t2v_step (form_data : form) (part : string) : form :=
  if String.eqb part "" || String.eqb part CRLF || String.prefix "--" part
  then form_data
  else
    match split_once part CRLFCRLF with
    | None => form_data
    | Some (headers_section, content0) =>
        let content := rstrip is_crlf content0 in
        let headers_text := decode_ignore headers_section in
        match name_re headers_text with
        | None => form_data
        | Some field_name =>
            let file_info := {| content := content;
                                filename := filename_re headers_text |} in
            let old := match py_get zs_eqb form_data field_name with
                       | Some l => l | None => [] end in
            py_set zs_eqb form_data field_name (old ++ [file_info])%list
        end
    end.

(** The [try] block of [TextToVideoModule.parse_multipart_form_data]
    (src/modules/text_to_video_module.py); [None] is a raised exception.
    [content_type] and [body] are [None] when Python passes [None]. *)
Definition t2v_parse_try (content_type : option (list Z)) (body : option string)
  : option form :=
  match content_type with
  | None => None
  | Some ct =>
      match boundary_re ct with
      | None => Some []
      | Some g =>
          let boundary := strip_quotes g in
          match utf8_encode (str "--" ++ boundary)%list,
                utf8_encode (str "--" ++ boundary ++ str "--")%list with
          | Some boundary_bytes, Some _ =>
              match body with
              | None => None
              | Some b =>
                  match py_split b boundary_bytes with
                  | None => None
                  | Some parts => Some (fold_left t2v_step parts [])
                  end
              end
          | _, _ => None
          end
      end
  end.

(** [TextToVideoModule.parse_multipart_form_data]: the [except] clause
    returns [{}]. *)
Definition t2v_parse_multipart_form_data (content_type : option (list Z))
    (body : option string) : form :=
  match t2v_parse_try content_type body with
  | Some f => f
  | None => []
  end.

(** The values stored by [ImageToVideoModule.parse_multipart_form_data]:
    a file dict, or the decoded text of a plain field. *)
Inductive i2v_value : Type :=
| I2VFile (content : string) (filename : list Z)
| I2VText (text : list Z).

Definition i2v_form := list (list Z * list i2v_value).

Definition i2v_boundary_re (s : list Z) : option (list Z) :=
  re_search_group (str "boundary=") (fun c => negb (Z.eqb c 59)) true None s.

Definition i2v_filename_re (s : list Z) : option (list Z) :=
  re_search_group (str "filename=" ++ [34%Z])%list
    (fun c => negb (Z.eqb c 34)) false (Some 34%Z) s.

(** [parts[1:-1]] *)
Definition inner_parts {A} (l : list A) : list A :=
  match l with
  | [] => []
  | _ :: t => removelast t
  end.

(** The loop body of [ImageToVideoModule.parse_multipart_form_data]. *)
Definition i2v_step (form_data : i2v_form) (part : string) : i2v_form :=
  if bytes_strip_empty part then form_data
  else
    match split_once part CRLFCRLF with
    | None => form_data
    | Some (headers_section, content0) =>
        let content := rstrip is_crlf content0 in
        let headers_text := decode_ignore headers_section in
        match name_re headers_text with
        | None => form_data
        | Some field_name =>
            match i2v_filename_re headers_text with
            | Some ((_ :: _) as fn) =>
                py_set zs_eqb form_data field_name [I2VFile content fn]
            | _ =>
                py_set zs_eqb form_data field_name
                  [I2VText (decode_ignore content)]
            end
        end
    end.

(** The [try] block of [ImageToVideoModule.parse_multipart_form_data]
    (src/modules/image_to_video_module.py). *)
Definition i2v_parse_try (content_type : option (list Z)) (body : option string)
  : option i2v_form :=
  match content_type with
  | None => None
  | Some ct =>
      if negb (zs_contains (str "multipart/form-data") ct) then Some []
      else
        match i2v_boundary_re ct with
        | None => Some []
        | Some g =>
            let boundary := strip_quotes g in
            match utf8_encode (str "--" ++ boundary)%list with
            | None => None
            | Some boundary_bytes =>
                match body with
                | None => None
                | Some b =>
                    match py_split b boundary_bytes with
                    | None => None
                    | Some parts =>
                        Some (fold_left i2v_step (inner_parts parts) [])
                    end
                end
            end
        end
  end.

Definition i2v_parse_multipart_form_data (content_type : option (list Z))
    (body : option string) : i2v_form :=
  match i2v_parse_try content_type body with
  | Some f => f
  | None => []
  end.

End Multipart.

(** ** src/modules/base_module.py: the response builders of BaseModule *)

Module Base.

(** The dict returned by [BaseModule.send_json_response]; the headers are
    constant and omitted. *)
Record module_response : Type := {
  status_code : nat;
  body : list (string * json)
}.

Definition send_json_response (status_code : nat) (data : list (string * json))
  : module_response :=
  {| status_code := status_code; body := data |}.

(** [BaseModule.send_error_response]; [self_name] is [self.name]. *)
Definition send_error_response (self_name : string) (status_code : nat)
    (error_message : string) : module_response :=
  send_json_response status_code
    [("success", JBool false); ("error", JStr error_message);
     ("module", JStr self_name)].

(** [BaseModule.build_error_response]: [payload.update(extra)] is a
    sequence of [payload[k] = v]. *)
Definition build_error_response (self_name : string) (status_code : nat)
    (base_error : string) (upstream_error : option json)
    (raw_error_text : option string) (extra : list (string * json))
  : module_response :=
  let payload := [("success", JBool false); ("error", JStr base_error);
                  ("module", JStr self_name)] in
  let payload := match upstream_error with
                 | Some u => py_set String.eqb payload "upstream_error" u
                 | None => payload end in
  let payload := match raw_error_text with
                 | Some t => if String.eqb t "" then payload
                             else py_set String.eqb payload
                                    "error_response_content" (JStr t)
                 | None => payload end in
  let payload := fold_left (fun p kv => py_set String.eqb p (fst kv) (snd kv))
                   extra payload in
  send_json_response status_code payload.

End Base.

(** ** src/main_server.py: ModuleManager and the request dispatch *)

Module Routing.

(** A registered module: its [name] and the keys of [get_routes()], in the
    order of the dict literal. *)
Record module : Type := {
  name : string;
  routes : list string
}.

(** [self.route_map]: a dict from route to module, in insertion order. *)
Definition route_map := list (string * module).

(** [ModuleManager.register_module]; [init_ok] is what
    [module.initialize()] returns. *)
Definition register_module (rm : route_map) (m : module) (init_ok : bool)
  : bool * route_map :=
  if init_ok then
    (true, fold_left (fun rm r => py_set String.eqb rm r m) (routes m) rm)
  else (false, rm).

(** [s.endswith(suffix)] *)
Definition endswith (s suffix : string) : bool :=
  let n := String.length s in
  let k := String.length suffix in
  Nat.leb k n && String.eqb (substring (n - k) k s) suffix.

(** The test of the prefix-matching loop. *)
Definition prefix_route_matches (path route : string) : bool :=
  endswith route "/" && String.prefix route path.

(** [ModuleManager.find_module_for_path]; [None] is Python's [None]. *)
Definition find_module_for_path (rm : route_map) (path : string)
  : option module :=
  match py_get String.eqb rm path with
  | Some m => Some m
  | None =>
      match find (fun rmod => prefix_route_matches path (fst rmod)) rm with
      | Some (_, m) => Some m
      | None => None
      end
  end.

(** What [MainRequestHandler] sends back. *)
Inductive reply : Type :=
| ServeStatic (file_path : string)
| SendJson (status_code : nat) (data : list (string * json))
| SendModule (resp : Base.module_response).

Definition not_found (path : string) : reply :=
  SendJson 404 [("success", JBool false); ("error", JStr "路径未找到");
                ("path", JStr path)].

(** The reply of the [except Exception] handler of [do_GET] and [do_POST],
    with the [str] of the exception. *)
Definition server_error (msg : string) : reply :=
  SendJson 500 [("success", JBool false);
                ("error", JStr ("服务器内部错误: " ++ msg))].

Section Dispatch.

(** [module.handle_request(path, method, headers, body)] *)
Variable handle_request : module -> string -> string -> Base.module_response.

(** [MainRequestHandler.do_POST] once the body is read. *)
Definition do_POST (rm : route_map) (path : string) : reply :=
  match find_module_for_path rm path with
  | Some m => SendModule (handle_request m path "POST")
  | None => not_found path
  end.

Definition lstrip_slash (s : string) : string :=
  let fix go (l : list ascii) :=
    match l with
    | c :: l' => if Ascii.eqb c "/"%char then go l' else l
    | [] => [] end in
  string_of_list_ascii (go (list_ascii_of_string s)).

(** [MainRequestHandler.do_GET]: static files first, then the modules. *)
Definition do_GET (rm : route_map) (path : string) : reply :=
  if String.eqb path "/" || String.eqb path "/index.html" then
    ServeStatic "index.html"
  else if String.eqb path "/reference_image_gen_video.html" then
    ServeStatic "frontend/reference_image_gen_video.html"
  else if String.eqb path "/gen_video.html" then
    ServeStatic "frontend/gen_video.html"
  else if String.eqb path "/video_comprehension.html" then
    ServeStatic "frontend/video_comprehension.html"
  else if String.prefix "/frontend/" path then ServeStatic (lstrip_slash path)
  else if String.prefix "/static/" path ||
          existsb (endswith path) [".css"; ".js"; ".png"; ".jpg"; ".ico"] then
    ServeStatic (lstrip_slash path)
  else if String.eqb path "/api/modules" then
    (* the module infos themselves are not modelled *)
    SendJson 200 [("success", JBool true); ("modules", JObj [])]
  else
    match find_module_for_path rm path with
    | Some m => SendModule (handle_request m path "GET")
    | None => not_found path
    end.

End Dispatch.

End Routing.

(** ** Decimal rendering of integers, as f-strings do *)

Module Dec.

Fixpoint digits_go (fuel : nat) (n : N) (acc : string) : string :=
  match fuel with
  | O => acc
  | S f =>
      let d := N.modulo n 10 in
      let acc' := String (ascii_of_N (48 + d)) acc in
      if N.ltb n 10 then acc' else digits_go f (N.div n 10) acc'
  end.

Definition n_to_string (n : N) : string := digits_go (N.to_nat (N.log2 n) + 1) n "".

Definition z_to_string (z : Z) : string :=
  if Z.ltb z 0 then "-" ++ n_to_string (Z.to_N (- z)) else n_to_string (Z.to_N z).

End Dec.

(** ** src/tests/ref_gen_video/test_ref_gen_video.py: the poll loop *)

Module PyTime.

(** [str(e)] of the [ValueError] [time.sleep] raises for a negative
    duration *)
Definition sleep_error : string := "sleep length must be non-negative".

End PyTime.

Module Poll.

(** What one [requests.get] attempt gives: a response with its status code,
    text and, for a 200, the value [response.json()] returns; or an
    exception, of class [RequestException] or another one (a JSON parse
    error included). *)
Inductive get_outcome : Type :=
| GetResp (status_code : Z) (text : string) (json_body : json)
| GetReqExc (msg : string)
| GetOtherExc (msg : string).

Inductive event : Type :=
| Request (url : string)
| Sleep (seconds : Z).

Definition success_tokens := ["succeeded"; "completed"; "success"].
Definition failure_tokens := ["failed"; "error"].

(** [status in [...]] for a JSON value *)
Definition status_in (status : json) (tokens : list string) : bool :=
  match status with
  | JStr s => existsb (String.eqb s) tokens
  | _ => false
  end.

Definition str_of_json (j : json) : string :=
  match j with JStr s => s | _ => "<json>" end.

Definition upstream_failure_result (status error_msg : json)
    (result : list (string * json)) : list (string * json) :=
  [("success", JBool false); ("status", status); ("error", error_msg);
   ("result", JObj result)].

Definition timeout_result (max_attempts : Z) : list (string * json) :=
  [("success", JBool false);
   ("error", JStr ("任务状态查询超时，已尝试" ++ Dec.z_to_string max_attempts ++ "次"))].

(** [type(v).__name__] of a value [json.loads] gives; a number is a
    [float] when its text has a fraction, an exponent, or is [NaN] or
    [Infinity]. *)
Definition py_type_name (j : json) : string :=
  match j with
  | JNull => "NoneType"
  | JBool _ => "bool"
  | JNum r =>
      if existsb (fun c => existsb (Ascii.eqb c) (list_ascii_of_string ".eENI"))
                 (list_ascii_of_string r)
      then "float" else "int"
  | JStr _ => "str"
  | JList _ => "list"
  | JObj _ => "dict"
  end.

(** [str(e)] of the [AttributeError] raised by [v.get(...)] on a value
    that is not a dict *)
Definition no_get_error (j : json) : string :=
  "'" ++ py_type_name j ++ "' object has no attribute 'get'".

(** How one iteration ends. *)
Inductive step_end : Type :=
| Return (r : list (string * json))
| Continue
| AttemptFailed (error_msg : string).

(** The body of the [try] block for one attempt. *)
Definition attempt_body (o : get_outcome) : step_end :=
  match o with
  | GetReqExc msg => AttemptFailed ("查询请求异常: " ++ msg)
  | GetOtherExc msg => AttemptFailed ("查询任务状态时发生错误: " ++ msg)
  | GetResp code text j =>
      if Z.eqb code 200 then
        match j with
        | JObj result =>
            let status := match jget result "status" with
                          | Some s => s | None => JStr "unknown" end in
            if status_in status success_tokens then
              Return [("success", JBool true); ("status", status);
                      ("result", JObj result)]
            else if status_in status failure_tokens then
              (* result.get('error', {}).get('message', ...) *)
              match jget result "error" with
              | None => Return (upstream_failure_result status
                                  (JStr "任务执行失败") result)
              | Some (JObj e) =>
                  Return (upstream_failure_result status
                            (match jget e "message" with
                             | Some m => m | None => JStr "任务执行失败" end)
                            result)
              | Some other =>
                  AttemptFailed ("查询任务状态时发生错误: " ++ no_get_error other)
              end
            else Continue
        | other =>
            AttemptFailed ("查询任务状态时发生错误: " ++ no_get_error other)
        end
      else
        AttemptFailed ("查询状态失败，HTTP " ++ Dec.z_to_string code ++ ": " ++ text)
  end.

Section Loop.

Variable base_url task_id : string.
Variable max_attempts interval : Z.
(** The outcome of the request made at each attempt index. *)
Variable server : nat -> get_outcome.

Definition status_url : string := base_url ++ "/task_status/" ++ task_id.

(** How [query_task_status] ends: it returns a dict, or raises the
    exception with the given [str]. *)
Inductive py_result : Type :=
| PyReturn (r : list (string * json))
| PyRaise (msg : string).

(** The iterations [attempt], ..., [attempt + fuel - 1] of
    [for attempt in range(max_attempts)]; [None] means the loop ran out.
    With a negative [interval], [time.sleep(interval)] raises [ValueError]:
    inside the [try] (after a non-terminal status or a non-200 answer) it
    is handled by [except Exception]; inside a handler it propagates. *)
Fixpoint poll_go (fuel attempt : nat) : option py_result * list event :=
  match fuel with
  | O => (None, [])
  | S f =>
      let req := Request status_url in
      let retry := let (res, evs) := poll_go f (S attempt) in
                   (res, req :: Sleep interval :: evs) in
      (* the [if attempt < max_attempts - 1: time.sleep(interval); continue]
         of a failed attempt *)
      let fail error_msg :=
        if Z.ltb (Z.of_nat attempt) (max_attempts - 1) then
          if Z.ltb interval 0 then (Some (PyRaise PyTime.sleep_error), [req])
          else retry
        else
          (Some (PyReturn [("success", JBool false); ("error", JStr error_msg)]), [req]) in
      match attempt_body (server attempt) with
      | Return r => (Some (PyReturn r), [req])
      | Continue =>
          if Z.ltb interval 0 then fail ("查询任务状态时发生错误: " ++ PyTime.sleep_error)
          else retry
      | AttemptFailed error_msg => fail error_msg
      end
  end.

(** [RefGenVideoTestCase.query_task_status] *)
Definition query_task_status : py_result * list event :=
  let (res, evs) := poll_go (Z.to_nat max_attempts) 0 in
  match res with
  | Some r => (r, evs)
  | None => (PyReturn (timeout_result max_attempts), evs)
  end.

End Loop.

Definition is_request (e : event) : bool :=
  match e with Request _ => true | Sleep _ => false end.

Definition request_count (evs : list event) : nat :=
  length (filter is_request evs).

End Poll.

(** ** src/modules/seedream_module.py: SeedreamModule._call_api_with_retry *)

Module Retry.

(** What one [self.visual_service.cv_process(form)] call gives: a response
    (JSON [null] for [None]) or an exception with its [str]. *)
Inductive cv_outcome : Type :=
| CvOk (response : json)
| CvRaise (msg : string).

Inductive event : Type :=
| Sleep (seconds : Z)
| Call.

(** [needle in haystack] *)
Definition contains (haystack needle : string) : bool :=
  match index 0 needle haystack with Some _ => true | None => false end.

Definition network_keywords : list string :=
  ["timeout"; "timed out"; "read timeout"; "connection"; "network";
   "httperror"; "connectionerror"; "connecttimeout"].

Section WithRetry.

(** [str.lower()] *)
Variable py_lower : string -> string.

Definition is_network_error (error_msg : string) : bool :=
  existsb (contains (py_lower error_msg)) network_keywords.

Definition is_timeout (error_msg : string) : bool :=
  contains (py_lower error_msg) "timeout" ||
  contains (py_lower error_msg) "timed out" ||
  contains (py_lower error_msg) "read timeout".

Variable max_retries retry_delay : Z.
(** The outcome of the call made at each attempt index. *)
Variable api : nat -> cv_outcome.

(** The iterations [attempt], ..., [attempt + fuel - 1] of
    [for attempt in range(self.max_retries + 1)]. The result is the
    returned response, or [JNull] for the final [return None]. *)
Fixpoint retry_go (fuel attempt : nat) : json * list event :=
  match fuel with
  | O => (JNull, [])
  | S f =>
      if Nat.ltb 0 attempt && Z.ltb retry_delay 0 then
        (* [time.sleep(self.retry_delay)] raises [ValueError] inside the
           [try], before the call; the handler treats it as any error *)
        if is_timeout PyTime.sleep_error || is_network_error PyTime.sleep_error then
          retry_go f (S attempt)
        else (JNull, [])
      else
      let pre := if Nat.ltb 0 attempt then [Sleep retry_delay] else [] in
      match api attempt with
      | CvOk response => (response, pre ++ [Call])
      | CvRaise error_msg =>
          if is_timeout error_msg || is_network_error error_msg then
            if Z.ltb (Z.of_nat attempt) max_retries then
              let (r, evs) := retry_go f (S attempt) in
              (r, pre ++ Call :: evs)
            else
              (* the last iteration: the loop ends *)
              let (r, evs) := retry_go f (S attempt) in
              (r, pre ++ Call :: evs)
          else
            (* non-network error: break *)
            (JNull, pre ++ [Call])
      end
  end%list.

Definition call_api_with_retry : json * list event :=
  retry_go (Z.to_nat (max_retries + 1)) 0.

End WithRetry.

Definition is_call (e : event) : bool :=
  match e with Call => true | Sleep _ => false end.

Definition call_count (evs : list event) : nat := length (filter is_call evs).

(** [Call], then [Sleep d; Call] repeated [n] times. *)
Fixpoint retry_trace (d : Z) (n : nat) : list event :=
  match n with
  | O => [Call]
  | S n' => (retry_trace d n' ++ [Sleep d; Call])%list
  end.


End Retry.

(** ** src/modules/video_comprehension_module.py *)

Module VideoComprehension.

Record vc_config : Type := {
  (** [self.config.get('video_comprehension', {}).get('model')] *)
  model : option string;
  (** [self.api_endpoint] *)
  api_endpoint : string;
  (** [self.config_api_key] *)
  config_api_key : string
}.

(** The [urllib.request.Request] the method sends: URL, JSON body, headers. *)
Record request : Type := {
  req_url : string;
  req_data : json;
  req_headers : list (string * string)
}.

Definition fixed_video_url : string :=
  "https://fuwei-test.tos-cn-beijing.volces.com/20251206_143318_38529b83_02176284157923200000000000000000000ffffac1833802ac173.mp4".

(** The request built by
    [VideoComprehensionModule.call_video_comprehension_api]; [video_url]
    appears only in a log line, which is not part of the request. *)
Definition call_video_comprehension_request (cfg : vc_config)
    (api_key video_url prompt : string) (fps : json) : request :=
  let request_data :=
    JObj [("model", JStr (match model cfg with
                          | Some m => m
                          | None => "doubao-seed-1-6-vision-250815" end));
          ("messages",
           JList [JObj [("content",
                         JList [JObj [("video_url",
                                       JObj [("url", JStr fixed_video_url);
                                             ("fps", fps)]);
                                      ("type", JStr "video_url")];
                                JObj [("text", JStr prompt);
                                      ("type", JStr "text")]]);
                        ("role", JStr "user")]])] in
  {| req_url := api_endpoint cfg;
     req_data := request_data;
     req_headers := [("Content-Type", "application/json");
                     ("Authorization", "Bearer " ++ api_key)] |}.

(** The validation of
    [VideoComprehensionModule.handle_video_comprehension_gen_text] once the
    parameters are parsed and stripped: an error response, or the request
    that is sent upstream. *)
Definition validate_and_build (cfg : vc_config)
    (api_key video_url prompt : string) (fps : json)
  : Base.module_response + request :=
  let self_name := "video_comprehension" in
  if String.eqb api_key "" && String.eqb (config_api_key cfg) "" then
    inl (Base.send_error_response self_name 400 "API Key 不能为空")
  else if String.eqb video_url "" then
    inl (Base.send_error_response self_name 400 "视频URL不能为空")
  else if String.eqb prompt "" then
    inl (Base.send_error_response self_name 400 "提示词不能为空")
  else
    let final_api_key :=
      if String.eqb (config_api_key cfg) "" then api_key else config_api_key cfg in
    inr (call_video_comprehension_request cfg final_api_key video_url prompt fps).

End VideoComprehension.

(** ** Helpers shared by the handlers *)

Module Str.

(** [sub in s] for [str] and [bytes] held as [string] *)
Fixpoint contains (sub s : string) : bool :=
  String.prefix sub s ||
  match s with
  | EmptyString => false
  | String _ s' => contains sub s'
  end.

(** [s.split(c)] for a separator of one character *)
Fixpoint split_char (c : ascii) (s : string) : list string :=
  match s with
  | EmptyString => [""]
  | String x s' =>
      let rest := split_char c s' in
      if Ascii.eqb x c then "" :: rest
      else match rest with
           | r :: rs => String x r :: rs
           | [] => [String x ""]
           end
  end.



(** [headers.get(k, '')] on the request headers (values as [str]) *)
Definition header (headers : list (string * list Z)) (k : string) : list Z :=
  match py_get String.eqb headers k with Some v => v | None => [] end.

(** [headers.get('Content-Type', '') or headers.get('content-type', '')] *)
Definition content_type_of (headers : list (string * list Z)) : list Z :=
  match header headers "Content-Type" with
  | [] => header headers "content-type"
  | ct => ct
  end.

(** The two shapes of the dict [TOSUploader.upload_file] returns:
    [success=True] with its [url], or [success=False] with its [error]. *)
Inductive upload_result : Type :=
| Uploaded (url : string)
| UploadFailed (error : string).

End Str.

(** ** src/modules/tos_utils.py: the rest of TOSUploader *)

Module TosMore.

Import Tos.

(** [TOSUploader.get_cache_size]: [self.upload_cache] is [None] when caching
    is off. *)
Definition get_cache_size (u : uploader) (st : tos_state) : nat :=
  if enable_cache u then length (upload_cache st) else 0.

(** [TOSUploader.clear_cache]: [if self.upload_cache:] clears a non-empty
    cache. *)
Definition clear_cache (u : uploader) (st : tos_state) : tos_state :=
  if enable_cache u then
    match upload_cache st with
    | [] => st
    | _ :: _ => {| upload_cache := []; commands := commands st |}
    end
  else st.

Definition set_acl_cmd (u : uploader) (object_key acl : string) : list string :=
  [tosutil_path u; "set-acl"; "tos://" ++ bucket u ++ "/" ++ object_key; acl].

(** [TOSUploader.set_acl] *)
Definition set_acl (u : uploader) (e : env) (st : tos_state) (object_key acl : string)
  : list (string * json) * tos_state :=
  let c := set_acl_cmd u object_key acl in
  let st1 := log_cmd st c in
  match run e c with
  | ProcOk => ([("success", JBool true); ("message", JStr ("ACL设置成功: " ++ acl))], st1)
  | ProcFail stderr =>
      ([("success", JBool false); ("error", JStr ("ACL设置失败: " ++ stderr))], st1)
  | ProcRaise msg =>
      ([("success", JBool false); ("error", JStr ("ACL设置过程中发生错误: " ++ msg))], st1)
  end.

End TosMore.

(** ** src/main_server.py: static files *)

Module Static.

Import Routing.

(** What the file system answers: [os.path.exists], [os.path.isfile], the
    bytes read by [open(p, 'rb').read()] ([None] when it raises), and
    [mimetypes.guess_type]. *)
Record filesystem : Type := {
  path_exists : string -> bool;
  path_isfile : string -> bool;
  read_file : string -> option string;
  guess_type : string -> option string
}.

(** The status line [serve_static_file] sends, with the body for a 200. *)
Inductive static_reply : Type :=
| Forbidden
| NotFound
| Served (mime_type content : string)
| ServerError.

(** [os.path.join(a, b)] for a relative [b] *)
Definition path_join (a b : string) : string :=
  if String.eqb a "" then b
  else if endswith a "/" then a ++ b
  else a ++ "/" ++ b.

Section Serve.

(** [os.path.dirname(__file__)] *)
Variable server_dir : string.

(** [MainRequestHandler.serve_static_file] *)
Definition serve_static_file (fs : filesystem) (file_path : string) : static_reply :=
  if Str.contains ".." file_path || String.prefix "/" file_path then Forbidden
  else
    let full_path := path_join server_dir file_path in
    if negb (path_exists fs full_path) || negb (path_isfile fs full_path) then NotFound
    else
      match read_file fs full_path with
      | None => ServerError
      | Some content =>
          Served (match guess_type fs full_path with
                  | Some m => m
                  | None => "application/octet-stream" end) content
      end.

End Serve.

End Static.

(** ** src/modules/seedream_module.py: the decoder and the end of the handler *)

Module Seedream.

Import Py Multipart.

(** [{'content': ..., 'headers': ..., 'filename': ...}]; the [filename] key
    is present only when the headers name a file. *)
Record sd_field : Type := {
  sd_content : string;
  sd_headers : list Z;
  sd_filename : option (list Z)
}.

Definition sd_form := list (list Z * list sd_field).

(** The loop body of [SeedreamModule.parse_multipart_form_data]. *)
Definition sd_step (form_data : sd_form) (part : string) : sd_form :=
  if bytes_strip_empty part then form_data
  else
    match split_once part CRLFCRLF with
    | None => form_data
    | Some (headers_section, content0) =>
        let content := rstrip is_crlf content0 in
        let headers_text := decode_ignore headers_section in
        match name_re headers_text with
        | None => form_data
        | Some field_name =>
            let field_info := {| sd_content := content; sd_headers := headers_text;
                                 sd_filename := filename_re headers_text |} in
            let old := match py_get zs_eqb form_data field_name with
                       | Some l => l | None => [] end in
            py_set zs_eqb form_data field_name (old ++ [field_info])%list
        end
    end.

(** The [try] block of [SeedreamModule.parse_multipart_form_data]; the
    handler passes a [str] content type and [None] is a raised exception. *)
Definition sd_parse_try (content_type : list Z) (body : option string) : option sd_form :=
  match boundary_re content_type with
  | None => Some []
  | Some g =>
      let boundary := strip_quotes g in
      match utf8_encode (str "--" ++ boundary)%list with
      | None => None
      | Some boundary_bytes =>
          match body with
          | None => None
          | Some b =>
              match py_split b boundary_bytes with
              | None => None
              | Some parts => Some (fold_left sd_step (inner_parts parts) [])
              end
          end
      end
  end.

Definition sd_parse_multipart_form_data (content_type : list Z) (body : option string)
  : sd_form :=
  match sd_parse_try content_type body with Some f => f | None => [] end.

Definition self_name : string := "seedream".


Section Finish.

(** [json.dumps(response, ensure_ascii=False)[:200]] *)
Variable dumps200 : json -> string.
(** [str(e)] of the [TypeError] or [AttributeError] raised when [data] is
    not a dict ([in] on it, indexing it or [data.keys()]). *)
Variable data_error_text : json -> string.



End Finish.

End Seedream.

(** ** src/modules/text_to_video_module.py: TextToVideoModule *)

Module T2V.

Import Py Multipart.

Definition self_name : string := "text_to_video".

(** The handlers of [get_routes()], in the order of the dict literal. *)
Inductive route_handler : Type :=
| HTextToVideo
| HImageToVideoAdvanced
| HVideoTaskStatus
| HUploadVideoImage.

Definition routes : list (string * route_handler) :=
  [("/text_to_video", HTextToVideo); ("/image_to_video_advanced", HImageToVideoAdvanced);
   ("/video_task_status/", HVideoTaskStatus); ("/upload_video_image", HUploadVideoImage)].

(** The route lookup of [TextToVideoModule.handle_request]. *)
Definition find_handler (path : string) : option route_handler :=
  match find (fun rh => String.eqb path (fst rh) ||
                        (Routing.endswith (fst rh) "/" && String.prefix (fst rh) path))
             routes with
  | Some (_, h) => Some h
  | None => None
  end.

(** [TextToVideoModule.handle_request]: the handler chosen, or the 404. *)
Definition handle_request (path : string) : route_handler + Base.module_response :=
  match find_handler path with
  | Some h => inl h
  | None => inr (Base.send_error_response self_name 404 "路由未找到")
  end.

(** [TextToVideoModule.handle_video_task_status] up to the upstream query:
    an error response, or the task id that is queried. *)
Definition video_task_status_target (path method : string)
  : Base.module_response + string :=
  if negb (String.eqb method "GET") then
    inl (Base.send_error_response self_name 405 "只支持GET方法")
  else
    let task_id := last (Str.split_char "/"%char path) "" in
    if String.eqb task_id "" then inl (Base.send_error_response self_name 400 "缺少任务ID")
    else inr task_id.

(** The model [_create_video_task] selects. *)
Definition model_name_of (video_type : string) (model_type : option string) : string :=
  let model_version := match model_type with
                       | Some m => if String.eqb m "" then "seedance-1.0-lite" else m
                       | None => "seedance-1.0-lite" end in
  if String.eqb video_type "text_to_video" then
    (if Str.contains "pro" model_version then "doubao-seedance-1-0-pro-250528"
     else "doubao-seedance-1-0-lite-t2v-250428")
  else
    (if Str.contains "pro" model_version then "doubao-seedance-1-0-pro-250528"
     else "doubao-seedance-1-0-lite-i2v-250428").

(** [if s:] for an optional [str] *)
Definition truthy_str (s : option string) : bool :=
  match s with Some x => negb (String.eqb x "") | None => false end.

(** The [enhanced_prompt] of [_create_video_task]. *)
Definition enhanced_prompt (prompt : string) (resolution aspect_ratio : option string)
    (duration seed : option Z) (fixed_camera : bool) : string :=
  let p := prompt in
  let p := match resolution with
           | Some r => if String.eqb r "" then p else p ++ " --rs " ++ r
           | None => p end in
  let p := match aspect_ratio with
           | Some a => if String.eqb a "" then p else p ++ " --rt " ++ a
           | None => p end in
  let p := match duration with
           | Some d => if Z.eqb d 0 then p else p ++ " --dur " ++ Dec.z_to_string d
           | None => p end in
  let p := match seed with
           | Some s => p ++ " --seed " ++ Dec.z_to_string s
           | None => p end in
  if fixed_camera then p ++ " --cf True" else p.

Definition image_item (url : option string) (role : string) : json :=
  JObj [("type", JStr "image_url");
        ("image_url", JObj [("url", match url with Some u => JStr u | None => JNull end)]);
        ("role", JStr role)].

(** The request [_create_video_task] sends: its JSON body and its
    [Authorization] header. *)
Record task_request : Type := {
  tr_body : json;
  tr_authorization : string
}.

Definition create_video_task_request (config_api_key : string) (prompt video_type : string)
    (first_frame_url last_frame_url : option string)
    (resolution aspect_ratio : option string) (duration seed : option Z)
    (fixed_camera : bool) (model_type api_key : option string) : task_request :=
  let text := JObj [("type", JStr "text");
                    ("text", JStr (enhanced_prompt prompt resolution aspect_ratio
                                     duration seed fixed_camera))] in
  let images :=
    if String.eqb video_type "text_to_video" then []
    else if String.eqb video_type "image_to_video_first_frame" then
      [image_item first_frame_url "first_frame"]
    else if String.eqb video_type "image_to_video_first_last_frame" then
      image_item first_frame_url "first_frame" ::
      (if truthy_str last_frame_url then [image_item last_frame_url "last_frame"] else [])
    else [] in
  let use_api_key := match api_key with
                     | Some k => if String.eqb k "" then config_api_key else k
                     | None => config_api_key end in
  {| tr_body := JObj [("model", JStr (model_name_of video_type model_type));
                      ("content", JList (text :: images))];
     tr_authorization := "Bearer " ++ use_api_key |}.

Section UploadImage.

(** [self.tos_uploader.upload_file(content, filename)] *)
Variable upload : string -> option (list Z) -> Str.upload_result.
(** [self.max_file_size] *)
Variable max_file_size : Z.

(** [TextToVideoModule.handle_upload_video_image]: the response and the
    upload calls made, each with the content and the filename passed. *)
Definition upload_video_image (method : string) (headers : list (string * list Z))
    (body : option string) : Base.module_response * list (string * option (list Z)) :=
  if negb (String.eqb method "POST") then
    (Base.send_error_response self_name 405 "只支持POST方法", [])
  else
    let ct := Str.content_type_of headers in
    if negb (zs_contains (str "multipart/form-data") ct) then
      (Base.send_error_response self_name 400 "需要multipart/form-data格式", [])
    else
      let form_data := t2v_parse_multipart_form_data (Some ct) body in
      match py_get zs_eqb form_data (str "image") with
      | None => (Base.send_error_response self_name 400 "缺少图片文件", [])
      | Some [] =>
          (Base.send_error_response self_name 500 "上传失败: list index out of range", [])
      | Some (file_info :: _) =>
          if Z.ltb max_file_size (Z.of_nat (String.length (content file_info))) then
            (Base.send_error_response self_name 400
               ("文件大小不能超过" ++ Dec.z_to_string (max_file_size / 1048576) ++ "MB"), [])
          else
            let call := (content file_info, filename file_info) in
            match upload (content file_info) (filename file_info) with
            | Str.Uploaded url =>
                (Base.send_json_response 200
                   [("success", JBool true); ("url", JStr url);
                    ("message", JStr "图片上传成功")], [call])
            | Str.UploadFailed err =>
                (Base.send_error_response self_name 500 ("上传失败: " ++ err), [call])
            end
      end.

End UploadImage.

End T2V.

(** ** src/modules/image_to_video_module.py: handle_upload_and_create_task *)

Module I2V.

Import Py Multipart.

Definition self_name : string := "image_to_video".

(** The truth value of a form value: a file dict is never empty. *)
Definition truthy (v : i2v_value) : bool :=
  match v with
  | I2VText t => match t with [] => false | _ => true end
  | I2VFile _ _ => true
  end.

(** [form_data.get(k, [''])[0] if form_data.get(k) else ''] *)
Definition first_value (form_data : i2v_form) (k : list Z) : i2v_value :=
  match py_get zs_eqb form_data k with
  | Some (v :: _) => v
  | _ => I2VText []
  end.

(** How the handler ends before the upstream call: an error response, or
    the API key, the prompt and the reference image URLs it submits. *)
Inductive outcome : Type :=
| Reject (resp : Base.module_response)
| Submit (api_key prompt : i2v_value) (image_urls : list string).

Section Upload.

(** [self.upload_to_tos(content, filename)] *)
Variable upload : string -> list Z -> Str.upload_result.
Variable max_file_size max_images : Z.

Definition too_large : Base.module_response :=
  Base.send_error_response self_name 400
    ("文件大小不能超过" ++ Dec.z_to_string (max_file_size / 1048576) ++ "MB").

(** The inner loop over the values of one field: an early response (if
    any), the URLs collected and the upload calls made. *)
Fixpoint upload_values (vs : list i2v_value) (urls : list string)
    (log : list (string * list Z))
  : option Base.module_response * list string * list (string * list Z) :=
  match vs with
  | [] => (None, urls, log)
  | I2VText _ :: vs' => upload_values vs' urls log
  | I2VFile c fn :: vs' =>
      if Z.ltb max_file_size (Z.of_nat (String.length c)) then (Some too_large, urls, log)
      else
        match upload c fn with
        | Str.UploadFailed err =>
            (Some (Base.send_error_response self_name 500 ("上传图片失败: " ++ err)),
             urls, (log ++ [(c, fn)])%list)
        | Str.Uploaded url => upload_values vs' (urls ++ [url])%list (log ++ [(c, fn)])%list
        end
  end.

(** The outer loop [for field_name, file_list in form_data.items()]. *)
Fixpoint upload_fields (fields : i2v_form) (urls : list string)
    (log : list (string * list Z))
  : option Base.module_response * list string * list (string * list Z) :=
  match fields with
  | [] => (None, urls, log)
  | (field_name, file_list) :: fs =>
      if zs_prefix (str "image_file") field_name then
        match upload_values file_list urls log with
        | (Some r, u, l) => (Some r, u, l)
        | (None, u, l) => upload_fields fs u l
        end
      else upload_fields fs urls log
  end.

(** [ImageToVideoModule.handle_upload_and_create_task] up to the upstream
    call, with the upload calls made. *)
Definition upload_and_create_task (config_api_key : list Z)
    (headers : list (string * list Z)) (body : option string)
  : outcome * list (string * list Z) :=
  let ct := Str.content_type_of headers in
  if negb (zs_contains (str "multipart/form-data") ct) then
    (Reject (Base.send_error_response self_name 400 "需要multipart/form-data格式"), [])
  else
    let form_data := i2v_parse_multipart_form_data (Some ct) body in
    let api_key := match config_api_key with
                   | [] => first_value form_data (str "api_key")
                   | _ => I2VText config_api_key end in
    let prompt := first_value form_data (str "prompt") in
    if negb (truthy api_key) || negb (truthy prompt) then
      (Reject (Base.send_error_response self_name 400 "API Key和提示词不能为空"), [])
    else
      match upload_fields form_data [] [] with
      | (Some r, _, log) => (Reject r, log)
      | (None, image_urls, log) =>
          if Nat.eqb (length image_urls) 0 then
            (Reject (Base.send_error_response self_name 400 "至少需要一张参考图"), log)
          else if Z.ltb max_images (Z.of_nat (length image_urls)) then
            (Reject (Base.send_error_response self_name 400
                       ("最多支持" ++ Dec.z_to_string max_images ++ "张参考图")), log)
          else (Submit api_key prompt image_urls, log)
      end.

End Upload.

End I2V.

(** ** src/modules/video_comprehension_module.py: the decoder and the upload *)

Module VC.

Import Py Multipart.

Definition self_name : string := "video_comprehension".

(** The values stored by [VideoComprehensionModule.parse_multipart_form_data]:
    a file dict, or the decoded text of a plain field. *)
Inductive vc_value : Type :=
| VCFile (content : string) (filename : list Z)
| VCText (text : list Z).

Definition vc_form := list (list Z * list vc_value).

(** The loop body: a file part replaces the list of its name, a plain part
    is appended to it. *)
Definition vc_step (form_data : vc_form) (part : string) : vc_form :=
  if bytes_strip_empty part then form_data
  else
    match split_once part CRLFCRLF with
    | None => form_data
    | Some (headers_section, content0) =>
        let content := rstrip is_crlf content0 in
        let headers_text := decode_ignore headers_section in
        match name_re headers_text with
        | None => form_data
        | Some field_name =>
            match filename_re headers_text with
            | Some fn => py_set zs_eqb form_data field_name [VCFile content fn]
            | None =>
                let old := match py_get zs_eqb form_data field_name with
                           | Some l => l | None => [] end in
                py_set zs_eqb form_data field_name
                  (old ++ [VCText (decode_ignore content)])%list
            end
        end
    end.

(** The boundary: from the content type when it names multipart/form-data,
    otherwise from the first line of the body. [None] is [return {}]. *)
Definition vc_boundary (content_type : option (list Z)) (body : option string)
  : option (list Z) :=
  let sniff :=
    match content_type with
    | None | Some [] => true
    | Some ct => negb (zs_contains (str "multipart/form-data") ct)
    end in
  if sniff then
    match body with
    | Some b =>
        if String.prefix "--" b then
          match py_split b CRLF with
          | Some (first_line :: _) =>
              if String.prefix "--" first_line then
                Some (decode_ignore (substring 2 (String.length first_line - 2) first_line))
              else None
          | _ => None
          end
        else None
    | None => None
    end
  else
    match content_type with
    | Some ct =>
        match i2v_boundary_re ct with
        | Some g => Some (strip_quotes g)
        | None => None
        end
    | None => None
    end.

(** The [try] block of [VideoComprehensionModule.parse_multipart_form_data];
    the outer [None] is a raised exception. *)
Definition vc_parse_try (content_type : option (list Z)) (body : option string)
  : option vc_form :=
  match vc_boundary content_type body with
  | None => Some []
  | Some boundary =>
      match utf8_encode (str "--" ++ boundary)%list with
      | None => None
      | Some boundary_bytes =>
          match body with
          | None => None
          | Some b =>
              match py_split b boundary_bytes with
              | None => None
              | Some parts => Some (fold_left vc_step (inner_parts parts) [])
              end
          end
      end
  end.

Definition vc_parse_multipart_form_data (content_type : option (list Z))
    (body : option string) : vc_form :=
  match vc_parse_try content_type body with Some f => f | None => [] end.

(** [s.endswith(suffix)] on [str] *)
Definition zs_endswith (s suffix : list Z) : bool :=
  Nat.leb (length suffix) (length s) && zs_eqb (skipn (length s - length suffix) s) suffix.

Definition video_exts : list string := [".mp4"; ".avi"; ".mov"; ".mkv"; ".webm"].

Definition max_video_size : Z := 100 * 1024 * 1024.

Section UploadVideo.

(** [str.lower()] *)
Variable py_lower_z : list Z -> list Z.
(** [self.upload_to_tos(content, filename)] *)
Variable upload : string -> list Z -> Str.upload_result.

(** [VideoComprehensionModule.handle_upload_video]: the response and the
    upload calls made. *)
Definition handle_upload_video (headers : list (string * list Z)) (body : option string)
  : Base.module_response * list (string * list Z) :=
  let content_type := Str.header headers "content-type" in
  let form_data := vc_parse_multipart_form_data (Some content_type) body in
  match py_get zs_eqb form_data (str "video") with
  | None => (Base.send_error_response self_name 400 "未找到视频文件", [])
  | Some [] =>
      (Base.send_error_response self_name 500 "上传失败: list index out of range", [])
  | Some (VCText _ :: _) => (Base.send_error_response self_name 400 "视频文件格式错误", [])
  | Some (VCFile file_content filename :: _) =>
      if negb (existsb (fun ext => zs_endswith (py_lower_z filename) (str ext)) video_exts)
      then (Base.send_error_response self_name 400
              "不支持的视频格式，请上传mp4、avi、mov、mkv或webm格式的视频", [])
      else if Z.ltb max_video_size (Z.of_nat (String.length file_content)) then
        (Base.send_error_response self_name 400 "视频文件大小不能超过100MB", [])
      else
        let call := (file_content, filename) in
        match upload file_content filename with
        | Str.Uploaded url =>
            (Base.send_json_response 200
               [("success", JBool true); ("url", JStr url);
                ("message", JStr "视频上传成功")], [call])
        | Str.UploadFailed err =>
            (Base.send_error_response self_name 500 ("视频上传失败: " ++ err), [call])
        end
  end.

End UploadVideo.

End VC.

(** * Properties *)

(** ** Dictionaries *)

Module PyDictFacts.

Section Facts.
Context {K V : Type} (eqK : K -> K -> bool)
        (eqK_spec : forall a b, eqK a b = true <-> a = b).

Lemma py_get_set_same (d : list (K * V)) (k : K) (v : V) :
  py_get eqK (py_set eqK d k v) k = Some v.
Proof.
  induction d as [|[k' v'] d IH]; simpl.
  - assert (eqK k k = true) as -> by (apply eqK_spec; reflexivity). reflexivity.
  - destruct (eqK k' k) eqn:E; simpl.
    + rewrite E. reflexivity.
    + rewrite E. exact IH.
Qed.

Lemma py_get_set_other (d : list (K * V)) (k k2 : K) (v : V) :
  k2 <> k -> py_get eqK (py_set eqK d k v) k2 = py_get eqK d k2.
Proof.
  intros Hne. induction d as [|[k' v'] d IH]; simpl.
  - destruct (eqK k k2) eqn:E; [|reflexivity].
    apply eqK_spec in E. congruence.
  - destruct (eqK k' k) eqn:E; simpl.
    + apply eqK_spec in E. subst k'.
      destruct (eqK k k2) eqn:E2; [apply eqK_spec in E2; congruence|reflexivity].
    + destruct (eqK k' k2); [reflexivity|exact IH].
Qed.

End Facts.

End PyDictFacts.

(** ** The uploader *)

Module TosFacts.

Import Tos.

Lemma storage_writes_app (l1 l2 : list (list string)) :
  storage_writes (l1 ++ l2) = storage_writes l1 + storage_writes l2.
Proof. unfold storage_writes. rewrite filter_app, length_app. reflexivity. Qed.

Lemma acl_not_cp (u : uploader) (f : string) : is_cp (acl_cmd u f) = false.
Proof. reflexivity. Qed.

Lemma cp_is_cp (u : uploader) (f : string) : is_cp (cp_cmd u f) = true.
Proof. reflexivity. Qed.

(** The shape of every execution of [upload_file] that does not hit the
    cache: the commands it appends, and either the cache is unchanged (and,
    with caching on, the call failed) or the storage write succeeded and
    the new URL was cached, the call then succeeding unless the clean-up of
    the temporary file raises. *)
Lemma upload_file_miss (md5 : string -> string) (u : uploader) (e : env)
    (st : tos_state) (content filename : string) (spr : bool) :
  (if enable_cache u then py_get String.eqb (upload_cache st) (md5 content)
   else None) = None ->
  let uf := unique_filename_of md5 e content filename in
  let res := upload_file md5 u e st content filename spr in
  (exists new_cmds,
      commands (snd res) = (commands st ++ new_cmds)%list /\
      storage_writes new_cmds =
        (if temp_write e then 0 else 1)) /\
  ((upload_cache (snd res) = upload_cache st /\
    (enable_cache u = true -> jget (fst res) "success" = Some (JBool false))) \/
   (temp_write e = None /\ run e (cp_cmd u uf) = ProcOk /\
    (spr = true -> forall m, run e (acl_cmd u uf) <> ProcRaise m) /\
    enable_cache u = true /\
    upload_cache (snd res) =
      py_set String.eqb (upload_cache st) (md5 content)
        (base_url u ++ "/" ++ uf) /\
    (cleanup e = None ->
     fst res = [("success", JBool true); ("url", JStr (base_url u ++ "/" ++ uf));
                ("cached", JBool false)]) /\
    (forall m, cleanup e = Some m -> fst res = exc_result m))).
Proof.
  intros Hmiss uf res. subst res. unfold upload_file. fold uf.
  rewrite Hmiss.
  destruct (temp_write e) as [msg|] eqn:Ht; simpl.
  { split; [exists []; rewrite app_nil_r; auto
           | left; split; [reflexivity | intros; reflexivity]]. }
  unfold upload_try.
  destruct (run e (cp_cmd u uf)) as [|err|msg] eqn:Hc; simpl.
  - destruct spr; simpl;
      [destruct (run e (acl_cmd u uf)) as [|err|msg] eqn:Ha; simpl|];
      destruct (enable_cache u) eqn:He; destruct (cleanup e) as [cm|] eqn:Hcl; simpl;
      (split; [eexists; split; [rewrite <- ?app_assoc; reflexivity | reflexivity] | ]);
      solve [ right; repeat split; try assumption;
              intros; try reflexivity; congruence
            | left; split; [reflexivity | intros; reflexivity || discriminate] ].
  - destruct (cleanup e); simpl;
      (split; [exists [cp_cmd u uf]; split; reflexivity
              | left; split; [reflexivity | intros; reflexivity]]).
  - destruct (cleanup e); simpl;
      (split; [exists [cp_cmd u uf]; split; reflexivity
              | left; split; [reflexivity | intros; reflexivity]]).
Qed.

(** A cache hit runs no command and returns the cached URL. *)
Lemma upload_file_hit (md5 : string -> string) (u : uploader) (e : env)
    (st : tos_state) (content filename : string) (spr : bool) (url : string) :
  enable_cache u = true ->
  py_get String.eqb (upload_cache st) (md5 content) = Some url ->
  upload_file md5 u e st content filename spr =
    ([("success", JBool true); ("url", JStr url); ("cached", JBool true)], st).
Proof.
  intros He Hc. unfold upload_file. rewrite He, Hc. reflexivity.
Qed.

Lemma string_eqb_spec (a b : string) : String.eqb a b = true <-> a = b.
Proof. apply String.eqb_eq. Qed.

(** On a cache miss, when the temporary file is written, the storage write
    returns 0 and the set-acl step (if any) does not raise, caching on: the
    URL is cached whatever the clean-up does, and the call answers success
    unless the clean-up raises. *)
Lemma upload_file_stored (md5 : string -> string) (u : uploader) (e : env)
    (st : tos_state) (content filename : string) (spr : bool) :
  enable_cache u = true ->
  py_get String.eqb (upload_cache st) (md5 content) = None ->
  let uf := unique_filename_of md5 e content filename in
  let res := upload_file md5 u e st content filename spr in
  temp_write e = None -> run e (cp_cmd u uf) = ProcOk ->
  (spr = true -> forall m, run e (acl_cmd u uf) <> ProcRaise m) ->
  upload_cache (snd res) =
    py_set String.eqb (upload_cache st) (md5 content) (base_url u ++ "/" ++ uf) /\
  (cleanup e = None ->
   fst res = [("success", JBool true); ("url", JStr (base_url u ++ "/" ++ uf));
              ("cached", JBool false)]) /\
  (forall m, cleanup e = Some m -> fst res = exc_result m).
Proof.
  intros He Hnone uf res Ht Hc Ha. subst res. unfold upload_file. fold uf.
  rewrite He, Hnone, Ht. unfold upload_try. rewrite Hc.
  destruct spr.
  - cbn. destruct (run e (acl_cmd u uf)) as [|err|msg] eqn:Hacl;
      [| | exfalso; exact (Ha eq_refl msg eq_refl)];
      rewrite He; destruct (cleanup e); simpl;
      (split; [reflexivity | split; intros; congruence]).
  - cbn. rewrite He; destruct (cleanup e); simpl;
      (split; [reflexivity | split; intros; congruence]).
Qed.

(** A call that misses the cache never answers [cached=true]. *)
Lemma upload_file_miss_not_cached (md5 : string -> string) (u : uploader)
    (e : env) (st : tos_state) (content filename : string) (spr : bool) :
  (if enable_cache u then py_get String.eqb (upload_cache st) (md5 content)
   else None) = None ->
  jget (fst (upload_file md5 u e st content filename spr)) "cached"
    <> Some (JBool true).
Proof.
  intros Hmiss. unfold upload_file. rewrite Hmiss.
  destruct (temp_write e); [discriminate|].
  unfold upload_try.
  destruct (run e _) as [|err|msg]; simpl;
    [destruct spr; simpl; [destruct (run e _); simpl|]|..];
    destruct (enable_cache u); destruct (cleanup e); simpl; discriminate.
Qed.

(** C1 (as amended). With caching on and no cache entry yet for the content:
    (a) if the first call succeeds, a second call with the same bytes (under
    any filename, in any later environment) runs no command, returns the
    first call's URL with [cached=true], and the two calls together perform
    exactly one storage write; (b) if the first call fails before the cache
    write (temporary file, storage write or set-acl step raising, or the
    storage write exiting non-zero), the cache is unchanged, and a second
    call whose temporary file is written performs one more storage write and
    does not answer [cached=true]; (c) otherwise the URL is cached by the
    first call, which answers success unless the clean-up of its temporary
    file raises (then [success=false]), and the second call is a cache hit
    that runs no command and answers [cached=true] with that URL. *)
Theorem upload_same_content_twice (md5 : string -> string) (u : uploader)
    (e1 e2 : env) (st : tos_state) (content fn1 fn2 : string) (spr1 spr2 : bool) :
  enable_cache u = true ->
  py_get String.eqb (upload_cache st) (md5 content) = None ->
  let uf1 := unique_filename_of md5 e1 content fn1 in
  let res1 := upload_file md5 u e1 st content fn1 spr1 in
  let res2 := upload_file md5 u e2 (snd res1) content fn2 spr2 in
  let stored := temp_write e1 = None /\ run e1 (cp_cmd u uf1) = ProcOk /\
                (spr1 = true -> forall m, run e1 (acl_cmd u uf1) <> ProcRaise m) in
  (jget (fst res1) "success" = Some (JBool true) ->
   storage_writes (commands (snd res2)) = storage_writes (commands st) + 1 /\
   commands (snd res2) = commands (snd res1) /\
   jget (fst res2) "url" = jget (fst res1) "url" /\
   jget (fst res1) "cached" = Some (JBool false) /\
   jget (fst res2) "cached" = Some (JBool true)) /\
  (~ stored ->
   upload_cache (snd res1) = upload_cache st /\
   jget (fst res1) "success" = Some (JBool false) /\
   (temp_write e2 = None ->
    storage_writes (commands (snd res2)) = storage_writes (commands (snd res1)) + 1 /\
    jget (fst res2) "cached" <> Some (JBool true))) /\
  (stored ->
   (cleanup e1 = None -> jget (fst res1) "success" = Some (JBool true)) /\
   (forall m, cleanup e1 = Some m -> fst res1 = exc_result m) /\
   commands (snd res2) = commands (snd res1) /\
   jget (fst res2) "url" = Some (JStr (base_url u ++ "/" ++ uf1)) /\
   jget (fst res2) "cached" = Some (JBool true)).
Proof.
  intros He Hnone uf1 res1 res2 stored.
  assert (Hmiss : (if enable_cache u then
                     py_get String.eqb (upload_cache st) (md5 content)
                   else None) = None) by (rewrite He; exact Hnone).
  assert (Hhit_of : upload_cache (snd res1) =
            py_set String.eqb (upload_cache st) (md5 content) (base_url u ++ "/" ++ uf1) ->
          res2 = ([("success", JBool true); ("url", JStr (base_url u ++ "/" ++ uf1));
                   ("cached", JBool true)], snd res1)).
  { intros Hcache. apply upload_file_hit; [exact He|].
    rewrite Hcache. apply PyDictFacts.py_get_set_same, string_eqb_spec. }
  destruct (upload_file_miss md5 u e1 st content fn1 spr1 Hmiss)
    as [[new [Hcmds Hw]] [[Hsame Hfail] | (Ht & Hcp & Hacl & _ & Hcache & Hres & Hexc)]];
    fold uf1 res1 in Hcmds, Hw.
  - (* the cache is unchanged: the first call failed *)
    fold res1 in Hsame, Hfail. specialize (Hfail He).
    split; [intros Hok; rewrite Hfail in Hok; discriminate|].
    split.
    + intros _. split; [exact Hsame | split; [exact Hfail|]].
      intros Ht2.
      assert (Hmiss2 : (if enable_cache u then
                          py_get String.eqb (upload_cache (snd res1)) (md5 content)
                        else None) = None) by (rewrite He, Hsame; exact Hnone).
      destruct (upload_file_miss md5 u e2 (snd res1) content fn2 spr2 Hmiss2)
        as [[new2 [Hcmds2 Hw2]] _].
      rewrite Ht2 in Hw2. split.
      * subst res2. rewrite Hcmds2, storage_writes_app, Hw2. reflexivity.
      * apply upload_file_miss_not_cached. exact Hmiss2.
    + intros Hst. exfalso.
      destruct (upload_file_stored md5 u e1 st content fn1 spr1 He Hnone)
        as [Hc1 _]; try apply Hst.
      fold uf1 res1 in Hc1. rewrite Hsame in Hc1.
      assert (Hg : py_get String.eqb (upload_cache st) (md5 content) =
                   Some (base_url u ++ "/" ++ uf1)).
      { rewrite Hc1 at 1. apply PyDictFacts.py_get_set_same, string_eqb_spec. }
      rewrite Hnone in Hg. discriminate.
  - (* the URL was cached by the first call *)
    fold res1 in Hcache, Hres, Hexc.
    specialize (Hhit_of Hcache).
    split; [|split].
    + intros Hok.
      destruct (cleanup e1) as [m|] eqn:Hcl.
      * rewrite (Hexc m eq_refl) in Hok. discriminate.
      * rewrite Hhit_of. simpl. rewrite (Hres eq_refl), Hcmds, storage_writes_app, Hw, Ht.
        repeat split; reflexivity.
    + intros Hns. exfalso. apply Hns. repeat split; assumption.
    + intros _. rewrite Hhit_of. simpl.
      split; [intros Hcl; rewrite (Hres Hcl); reflexivity|].
      split; [exact Hexc|]. repeat split; reflexivity.
Qed.

(** The concrete run used for C1: content "hello", caching on, a first
    storage write that fails with a non-zero exit, then a second call whose
    write succeeds. *)
Definition demo_uploader : uploader :=
  {| bucket := "bkt"; region := "cn-beijing"; enable_cache := true;
     tosutil_path := "tosutil" |}.

Definition demo_md5 (s : string) : string := "5d41402abc4b2a76b9719d911017c592".

Definition env_all (o : proc_outcome) (t : string) : env :=
  {| now := t; temp_write := None; run := fun _ => o; cleanup := None |}.

Definition st0 : tos_state := {| upload_cache := []; commands := [] |}.

(** C1 (counterexample). Uploading the same 5 bytes twice with caching on
    does not always write once and answer [cached=true] the second time: if
    the first storage write fails, nothing is cached, the second call writes
    again and answers [cached=false]. *)
Lemma upload_twice_after_failed_write :
  let res1 := upload_file demo_md5 demo_uploader
                (env_all (ProcFail "network down") "20250101_000000")
                st0 "hello" "a.txt" true in
  let res2 := upload_file demo_md5 demo_uploader
                (env_all ProcOk "20250101_000001")
                (snd res1) "hello" "b.txt" true in
  storage_writes (commands (snd res2)) = 2 /\
  jget (fst res2) "cached" = Some (JBool false).
Proof. vm_compute. split; reflexivity. Qed.

(** A run whose storage write and set-acl step succeed but whose clean-up
    [os.unlink] of the temporary file raises. *)
Definition env_unlink_fails : env :=
  {| now := "20250101_000000"; temp_write := None; run := fun _ => ProcOk;
     cleanup := Some "[Errno 13] Permission denied" |}.

(** C4 (counterexample). A call can report [success=false] and still have
    written the cache: when the clean-up of the temporary file raises after
    the URL was cached, the outer handler answers the error while the cache
    keeps the new entry. *)
Lemma upload_failure_after_cache_write :
  let res := upload_file demo_md5 demo_uploader env_unlink_fails st0
               "hello" "a.txt" true in
  jget (fst res) "success" = Some (JBool false) /\
  upload_cache (snd res) =
    [("5d41402abc4b2a76b9719d911017c592",
      "https://bkt.tos-cn-beijing.volces.com/20250101_000000_5d41402a_a.txt")].
Proof. vm_compute. split; reflexivity. Qed.

(** C4 (as amended). The cache of [upload_file] is written only when the
    temporary file was written, the storage write ([tosutil cp]) returned 0
    and the set-acl step did not raise; the call then answers success,
    unless the clean-up of the temporary file raises, which answers
    [success=false] with the URL already cached. A call that reports a
    failure and whose clean-up does not raise leaves the cache unchanged. *)
Theorem upload_cache_written_only_after_write (md5 : string -> string)
    (u : uploader) (e : env) (st : tos_state) (content filename : string)
    (spr : bool) :
  let uf := unique_filename_of md5 e content filename in
  let res := upload_file md5 u e st content filename spr in
  (upload_cache (snd res) <> upload_cache st ->
     temp_write e = None /\
     run e (cp_cmd u uf) = ProcOk /\
     (spr = true -> forall m, run e (acl_cmd u uf) <> ProcRaise m) /\
     (cleanup e = None /\ jget (fst res) "success" = Some (JBool true) \/
      exists m, cleanup e = Some m /\ fst res = exc_result m)) /\
  (jget (fst res) "success" = Some (JBool false) -> cleanup e = None ->
     upload_cache (snd res) = upload_cache st).
Proof.
  intros uf res.
  destruct (if enable_cache u then py_get String.eqb (upload_cache st) (md5 content)
            else None) as [url|] eqn:Hc.
  - (* a cache hit returns the state unchanged *)
    assert (He : enable_cache u = true)
      by (destruct (enable_cache u); [reflexivity|discriminate]).
    rewrite He in Hc.
    subst res. rewrite (upload_file_hit md5 u e st content filename spr url He Hc).
    simpl. split; [intros H; exfalso; apply H; reflexivity
                  | intros H; discriminate].
  - destruct (upload_file_miss md5 u e st content filename spr Hc)
      as [_ [[Hsame _] | (Ht & Hcp & Hacl & _ & _ & Hres & Hexc)]]; subst res.
    + split; [intros H; contradiction | intros _ _; exact Hsame].
    + split.
      * intros _. repeat split; try assumption.
        destruct (cleanup e) as [m|] eqn:Hcl.
        -- right. exists m. split; [reflexivity | exact (Hexc m eq_refl)].
        -- left. rewrite (Hres eq_refl). split; reflexivity.
      * intros Hf Hcl. rewrite (Hres Hcl) in Hf. discriminate.
Qed.

(** C4 (witness). *)
Lemma upload_cache_written_only_after_write_witness :
  upload_cache (snd (upload_file demo_md5 demo_uploader
                       (env_all (ProcFail "denied") "t") st0 "hello" "a.txt" true))
  = upload_cache st0.
Proof.
  apply (proj2 (upload_cache_written_only_after_write demo_md5 demo_uploader
                  (env_all (ProcFail "denied") "t") st0 "hello" "a.txt" true));
    vm_compute; reflexivity.
Defined.

(** The outcome of each tosutil command line in the C5 run: the storage
    write succeeds, the set-acl step exits with a non-zero code. *)
Definition acl_denied (c : list string) : proc_outcome :=
  if is_cp c then ProcOk else ProcFail "AccessDenied".

(** C5 (counterexample). A non-zero exit of the set-acl step does not give
    an error result: the call answers [success=true] with the URL. *)
Lemma upload_acl_failure_is_success :
  fst (upload_file demo_md5 demo_uploader
         {| now := "20250101_000000"; temp_write := None; run := acl_denied;
            cleanup := None |}
         st0 "hello" "a.txt" true) =
  [("success", JBool true);
   ("url", JStr "https://bkt.tos-cn-beijing.volces.com/20250101_000000_5d41402a_a.txt");
   ("cached", JBool false)].
Proof. vm_compute. reflexivity. Qed.

(** C5 (as amended). On a cache miss, [upload_file] returns (never raises):
    [success=false] with [上传过程中发生错误: <msg>] when writing the
    temporary file raises, or when its clean-up raises (whatever the rest of
    the call did); and, when the clean-up does not raise, [success=false]
    with [上传失败: <stderr>] when the storage write exits with a non-zero
    code, [success=false] with [上传过程中发生错误: <msg>] when the storage
    write or the set-acl step raises, and [success=true] with the URL when
    only the set-acl step exits with a non-zero code. *)
Theorem upload_error_results (md5 : string -> string) (u : uploader) (e : env)
    (st : tos_state) (content filename : string) (spr : bool) :
  (if enable_cache u then py_get String.eqb (upload_cache st) (md5 content)
   else None) = None ->
  let uf := unique_filename_of md5 e content filename in
  let res := fst (upload_file md5 u e st content filename spr) in
  (forall msg, temp_write e = Some msg -> res = exc_result msg) /\
  (temp_write e = None -> forall msg, cleanup e = Some msg -> res = exc_result msg) /\
  (temp_write e = None -> cleanup e = None ->
     forall err, run e (cp_cmd u uf) = ProcFail err ->
     res = [("success", JBool false); ("error", JStr ("上传失败: " ++ err))]) /\
  (temp_write e = None -> cleanup e = None ->
     forall msg, run e (cp_cmd u uf) = ProcRaise msg -> res = exc_result msg) /\
  (temp_write e = None -> cleanup e = None -> run e (cp_cmd u uf) = ProcOk ->
     spr = true ->
     forall msg, run e (acl_cmd u uf) = ProcRaise msg -> res = exc_result msg) /\
  (temp_write e = None -> cleanup e = None -> run e (cp_cmd u uf) = ProcOk ->
     spr = true ->
     forall err, run e (acl_cmd u uf) = ProcFail err ->
     res = [("success", JBool true); ("url", JStr (base_url u ++ "/" ++ uf));
            ("cached", JBool false)]).
Proof.
  intros Hmiss uf res. subst res. unfold upload_file. fold uf. rewrite Hmiss.
  repeat split.
  - intros msg Ht. rewrite Ht. reflexivity.
  - intros Ht msg Hcl. rewrite Ht. destruct (upload_try _ _ _ _ _ _).
    rewrite Hcl. reflexivity.
  - intros Ht Hcl err Hc. rewrite Ht. unfold upload_try. rewrite Hc, Hcl. reflexivity.
  - intros Ht Hcl msg Hc. rewrite Ht. unfold upload_try. rewrite Hc, Hcl. reflexivity.
  - intros Ht Hcl Hc Hs msg Ha. rewrite Ht. unfold upload_try. rewrite Hc, Hs. cbn.
    rewrite Ha, Hcl. reflexivity.
  - intros Ht Hcl Hc Hs err Ha. rewrite Ht. unfold upload_try. rewrite Hc, Hs. cbn.
    rewrite Ha. destruct (enable_cache u); rewrite Hcl; reflexivity.
Qed.

(** C5 (witness). *)
Lemma upload_error_results_witness :
  fst (upload_file demo_md5 demo_uploader (env_all (ProcFail "disk full") "t")
         st0 "hello" "a.txt" true) =
  [("success", JBool false); ("error", JStr ("上传失败: " ++ "disk full"))].
Proof.
  apply (proj1 (proj2 (proj2 (upload_error_results demo_md5 demo_uploader
                        (env_all (ProcFail "disk full") "t") st0 "hello" "a.txt"
                        true (eq_refl None))))); reflexivity.
Defined.

(** C1 (witness). *)
Lemma upload_same_content_twice_witness :
  let res1 := upload_file demo_md5 demo_uploader (env_all ProcOk "t1")
                st0 "hello" "a.txt" true in
  let res2 := upload_file demo_md5 demo_uploader (env_all ProcOk "t2")
                (snd res1) "hello" "b.txt" true in
  storage_writes (commands (snd res2)) = 1.
Proof.
  apply (upload_same_content_twice demo_md5 demo_uploader (env_all ProcOk "t1")
           (env_all ProcOk "t2") st0 "hello" "a.txt" "b.txt" true true);
    vm_compute; reflexivity.
Defined.

End TosFacts.

(** ** Route resolution and dispatch *)

Module RoutingFacts.

Import Routing.

Lemma find_split {A} (p : A -> bool) (l : list A) (x : A) :
  find p l = Some x <->
  exists l1 l2, l = (l1 ++ x :: l2)%list /\ p x = true /\
                forallb (fun y => negb (p y)) l1 = true.
Proof.
  split.
  - induction l as [|y l IH]; simpl; [discriminate|].
    destruct (p y) eqn:Hy.
    + intros H. injection H as <-. exists [], l. auto.
    + intros H. destruct (IH H) as (l1 & l2 & -> & Hx & Hl1).
      exists (y :: l1), l2. simpl. rewrite Hy, Hl1. auto.
  - intros (l1 & l2 & -> & Hx & Hl1). induction l1 as [|y l1 IH]; simpl.
    + rewrite Hx. reflexivity.
    + simpl in Hl1. apply andb_prop in Hl1 as [Hy Hl1].
      destruct (p y); [discriminate|]. exact (IH Hl1).
Qed.

(** C2. [find_module_for_path] returns the module registered under the
    path itself when there is one; otherwise the module of the first entry
    of the route table, in insertion order, whose route ends in '/' and is
    a prefix of the path; when neither exists, POST dispatch answers the 404
    body, and GET dispatch does too unless the path is one of the static or
    [/api/modules] paths served before module dispatch. *)
Theorem find_module_for_path_spec
    (handle : module -> string -> string -> Base.module_response)
    (rm : route_map) (path : string) :
  (forall m, py_get String.eqb rm path = Some m ->
     find_module_for_path rm path = Some m) /\
  (py_get String.eqb rm path = None -> forall m,
     find_module_for_path rm path = Some m <->
     exists l1 r l2, rm = (l1 ++ (r, m) :: l2)%list /\
       prefix_route_matches path r = true /\
       forallb (fun e => negb (prefix_route_matches path (fst e))) l1 = true) /\
  (find_module_for_path rm path = None ->
     do_POST handle rm path = not_found path /\
     (do_GET handle rm path = not_found path \/
      (exists f, do_GET handle rm path = ServeStatic f) \/
      path = "/api/modules")).
Proof.
  split; [|split].
  - intros m Hm. unfold find_module_for_path. rewrite Hm. reflexivity.
  - intros Hnone m. unfold find_module_for_path. rewrite Hnone.
    split.
    + destruct (find _ rm) as [[r m']|] eqn:Hf; [|discriminate].
      intros H. injection H as <-.
      apply find_split in Hf as (l1 & l2 & Heq & Hr & Hl1).
      exists l1, r, l2. auto.
    + intros (l1 & r & l2 & Heq & Hr & Hl1).
      assert (Hf : find (fun rmod => prefix_route_matches path (fst rmod)) rm =
                   Some (r, m)) by (apply find_split; exists l1, l2; auto).
      rewrite Hf. reflexivity.
  - intros Hnone. unfold do_POST, do_GET. rewrite Hnone. split; [reflexivity|].
    repeat match goal with
           | |- context [if ?c then _ else _] => destruct c eqn:?
           end;
      try (right; left; eexists; reflexivity); try (left; reflexivity).
    right; right. apply String.eqb_eq. assumption.
Qed.

Definition demo_i2v : module :=
  {| name := "image_to_video"; routes := ["/upload_and_create_task"; "/task_status/"] |}.
Definition demo_t2v : module :=
  {| name := "text_to_video";
     routes := ["/text_to_video"; "/image_to_video_advanced"; "/video_task_status/";
                "/upload_video_image"] |}.
Definition demo_rm : route_map :=
  snd (register_module (snd (register_module [] demo_i2v true)) demo_t2v true).

Definition echo_handle (m : module) (path meth : string) : Base.module_response :=
  Base.send_json_response 200 [("module", JStr (name m))].

(** C2 (witness). *)
Lemma find_module_for_path_spec_witness :
  find_module_for_path demo_rm "/task_status/abc" = Some demo_i2v.
Proof.
  apply (proj2 (proj1 (proj2 (find_module_for_path_spec echo_handle demo_rm
                                "/task_status/abc")) (eq_refl None) demo_i2v)).
  exists [("/upload_and_create_task", demo_i2v)], "/task_status/",
         [("/text_to_video", demo_t2v); ("/image_to_video_advanced", demo_t2v);
          ("/video_task_status/", demo_t2v); ("/upload_video_image", demo_t2v)].
  split; [reflexivity | split; reflexivity].
Defined.

End RoutingFacts.

(** ** Error envelopes *)

Module ErrorFacts.

Import Routing.

(** C9 (counterexample). The dispatcher's own 404 body, for a path no
    route matches, has [success=false] but no [module] field. *)
Lemma dispatch_404_has_no_module :
  let r := do_POST RoutingFacts.echo_handle [] "/no_such_route" in
  r = not_found "/no_such_route" /\
  match r with
  | SendJson code data =>
      code = 404 /\ jget data "success" = Some (JBool false) /\
      jget data "module" = None
  | _ => False
  end.
Proof. vm_compute. repeat split. Qed.

Lemma fold_py_set_preserves (extra payload : list (string * json)) (k : string) :
  forallb (fun kv => negb (String.eqb (fst kv) k)) extra = true ->
  jget (fold_left (fun p kv => py_set String.eqb p (fst kv) (snd kv)) extra payload) k =
  jget payload k.
Proof.
  revert payload. induction extra as [|[k' v'] extra IH]; intros payload H; simpl.
  - reflexivity.
  - simpl in H. apply andb_prop in H as [Hk H].
    rewrite IH by exact H. unfold jget.
    apply PyDictFacts.py_get_set_other; [exact String.eqb_eq|].
    intros ->. rewrite String.eqb_refl in Hk. discriminate.
Qed.

(** C9 (as amended). Every module-level error response built by
    [send_error_response] carries [success=false] and [module] set to the
    module's non-empty name; one built by [build_error_response] does too
    when the keys of its [extra] include neither [module] nor [success]
    (they are copied over the payload last). The dispatcher's own failure
    bodies carry no [module] field: for a path no route matches, [do_POST]
    answers, and [do_GET] answers unless the path is one of its static-file
    paths or [/api/modules], the 404 body with [success=false], the error
    text [路径未找到] and the [path]; the 500 body of their exception
    handler has [success=false] and an error text only. *)
Theorem error_envelopes (self_name : string) (code : nat) (msg : string)
    (upstream : option json) (raw : option string) (extra : list (string * json))
    (handle : module -> string -> string -> Base.module_response)
    (rm : route_map) (path : string) :
  self_name <> "" ->
  forallb (fun kv => negb (String.eqb (fst kv) "module")) extra = true ->
  let e1 := Base.body (Base.send_error_response self_name code msg) in
  let e2 := Base.body (Base.build_error_response self_name code msg upstream raw extra) in
  jget e1 "success" = Some (JBool false) /\ jget e1 "module" = Some (JStr self_name) /\
  jget e2 "module" = Some (JStr self_name) /\
  (forallb (fun kv => negb (String.eqb (fst kv) "success")) extra = true ->
   jget e2 "success" = Some (JBool false)) /\
  (find_module_for_path rm path = None ->
   do_POST handle rm path = not_found path /\
   (do_GET handle rm path = not_found path \/
    (exists f, do_GET handle rm path = ServeStatic f) \/
    do_GET handle rm path = SendJson 200 [("success", JBool true); ("modules", JObj [])])) /\
  (exists data, not_found path = SendJson 404 data /\
     jget data "success" = Some (JBool false) /\
     jget data "error" = Some (JStr "路径未找到") /\
     jget data "path" = Some (JStr path) /\ jget data "module" = None) /\
  (exists data, server_error msg = SendJson 500 data /\
     jget data "success" = Some (JBool false) /\ jget data "module" = None).
Proof.
  intros Hname Hextra e1 e2. subst e1 e2.
  split; [reflexivity|]. split; [reflexivity|].
  unfold Base.build_error_response, Base.send_json_response.
  cbv beta zeta iota delta [Base.body].
  assert (Hbase : forall (p : list (string * json)) k,
             k <> "upstream_error" -> k <> "error_response_content" ->
             jget (match raw with
                   | Some t => if String.eqb t "" then p
                               else py_set String.eqb p "error_response_content" (JStr t)
                   | None => p end) k = jget p k /\
             jget (match upstream with
                   | Some u => py_set String.eqb p "upstream_error" u
                   | None => p end) k = jget p k).
  { intros p k H1 H2. split.
    - destruct raw as [t|]; [destruct (String.eqb t "")|]; try reflexivity.
      unfold jget. apply PyDictFacts.py_get_set_other; [exact String.eqb_eq|congruence].
    - destruct upstream as [u|]; [|reflexivity].
      unfold jget. apply PyDictFacts.py_get_set_other; [exact String.eqb_eq|congruence]. }
  split; [|split; [|split; [|split]]].
  - rewrite fold_py_set_preserves by exact Hextra.
    rewrite (proj1 (Hbase _ "module" ltac:(discriminate) ltac:(discriminate))).
    rewrite (proj2 (Hbase _ "module" ltac:(discriminate) ltac:(discriminate))).
    reflexivity.
  - intros Hs. rewrite fold_py_set_preserves by exact Hs.
    rewrite (proj1 (Hbase _ "success" ltac:(discriminate) ltac:(discriminate))).
    rewrite (proj2 (Hbase _ "success" ltac:(discriminate) ltac:(discriminate))).
    reflexivity.
  - intros Hnone. split; [unfold do_POST; rewrite Hnone; reflexivity|].
    unfold do_GET.
    repeat match goal with
           | |- context [if ?b then _ else _] => destruct b
           end;
      solve [ right; left; eexists; reflexivity
            | right; right; reflexivity
            | left; rewrite Hnone; reflexivity ].
  - eexists. split; [reflexivity|]. repeat split.
  - eexists. split; [reflexivity|]. split; reflexivity.
Qed.

(** C9 (witness). *)
Lemma error_envelopes_witness :
  jget (Base.body (Base.build_error_response "text_to_video" 500 "boom" None None
                     [("status", JStr "failed")])) "module" =
  Some (JStr "text_to_video").
Proof.
  apply (error_envelopes "text_to_video" 500 "boom" None None
           [("status", JStr "failed")] RoutingFacts.echo_handle [] "/x");
    [discriminate | reflexivity].
Defined.

End ErrorFacts.

(** ** The poll loop *)

Module PollFacts.

Import Poll.

(** A 200 response whose body is a JSON object with a vendor status token
    that is neither a success nor a failure token. *)
Definition nonterminal_response (o : get_outcome) : Prop :=
  exists text fields s,
    o = GetResp 200 text (JObj fields) /\
    jget fields "status" = Some (JStr s) /\
    existsb (String.eqb s) (success_tokens ++ failure_tokens) = false.

Lemma nonterminal_continues (o : get_outcome) :
  nonterminal_response o -> attempt_body o = Continue.
Proof.
  intros (text & fields & s & -> & Hs & Hnt). simpl. rewrite Hs.
  rewrite existsb_app in Hnt. apply orb_false_iff in Hnt as [H1 H2].
  unfold status_in. rewrite H1, H2. reflexivity.
Qed.

Fixpoint poll_trace (url : string) (interval : Z) (n : nat) : list event :=
  match n with
  | O => []
  | S n' => Request url :: Sleep interval :: poll_trace url interval n'
  end.

Lemma poll_go_all_continue base_url task_id max_attempts interval server :
  (0 <= interval)%Z ->
  (forall i, nonterminal_response (server i)) ->
  forall n a,
  poll_go base_url task_id max_attempts interval server n a =
    (None, poll_trace (status_url base_url task_id) interval n).
Proof.
  intros Hi Hall n. induction n as [|n IH]; intros a; simpl; [reflexivity|].
  rewrite (nonterminal_continues _ (Hall a)).
  replace (interval <? 0)%Z with false by (symmetry; apply Z.ltb_ge; exact Hi).
  rewrite IH. reflexivity.
Qed.

Lemma request_count_trace (url : string) (interval : Z) (n : nat) :
  request_count (poll_trace url interval n) = n.
Proof.
  induction n as [|n IH]; [reflexivity|].
  unfold request_count in *. simpl. rewrite IH. reflexivity.
Qed.

(** C3. With [max_attempts = 3] and [interval = 0], against a server that
    always answers 200 with a non-terminal status token, [query_task_status]
    makes exactly 3 status requests and returns the timeout result, which
    has no [status] key and differs from every upstream-reported failure
    result. *)
Theorem poll_three_attempts_timeout (base_url task_id : string)
    (server : nat -> get_outcome) :
  (forall i, nonterminal_response (server i)) ->
  let res := query_task_status base_url task_id 3 0 server in
  snd res = poll_trace (status_url base_url task_id) 0 3 /\
  request_count (snd res) = 3 /\
  fst res = PyReturn (timeout_result 3) /\
  jget (timeout_result 3) "error" = Some (JStr "任务状态查询超时，已尝试3次") /\
  jget (timeout_result 3) "status" = None /\
  (forall status error_msg result,
     timeout_result 3 <> upstream_failure_result status error_msg result).
Proof.
  intros Hall res. subst res. unfold query_task_status.
  rewrite (poll_go_all_continue base_url task_id 3 0 server (Z.le_refl 0) Hall). simpl.
  split; [reflexivity|]. split; [reflexivity|].
  split; [reflexivity|]. split; [reflexivity|]. split; [reflexivity|].
  intros status error_msg result H. discriminate H.
Qed.

Definition running_server (i : nat) : get_outcome :=
  GetResp 200 "{}" (JObj [("id", JStr "task-123"); ("status", JStr "running")]).

(** C3 (witness). *)
Lemma poll_three_attempts_timeout_witness :
  request_count (snd (query_task_status "http://localhost:8000" "task-123" 3 0
                        running_server)) = 3.
Proof.
  apply (poll_three_attempts_timeout "http://localhost:8000" "task-123" running_server).
  intros i. exists "{}", [("id", JStr "task-123"); ("status", JStr "running")], "running".
  split; [reflexivity | split; reflexivity].
Defined.

End PollFacts.

(** ** Retry on submission *)

Module RetryFacts.

Import Retry.

Section Facts.

Variable py_lower : string -> string.
Variable max_retries retry_delay : Z.
Variable api : nat -> cv_outcome.


Definition attempt_events (i : nat) : list event :=
  ((if Nat.ltb 0 i then [Sleep retry_delay] else []) ++ [Call])%list.

Definition events_of (a n : nat) : list event := flat_map attempt_events (seq a n).

Lemma events_of_S (a n : nat) :
  events_of a (S n) =
  ((if Nat.ltb 0 a then [Sleep retry_delay] else []) ++ Call :: events_of (S a) n)%list.
Proof. unfold events_of, attempt_events. simpl. rewrite <- app_assoc. reflexivity. Qed.




Lemma events_of_zero (k : nat) : events_of 0 (S k) = retry_trace retry_delay k.
Proof.
  induction k as [|k IH]; [reflexivity|].
  unfold events_of in *. rewrite seq_S, flat_map_app, IH. simpl.
  unfold attempt_events. simpl. reflexivity.
Qed.

Lemma call_count_trace (k : nat) : call_count (retry_trace retry_delay k) = S k.
Proof.
  induction k as [|k IH]; [reflexivity|].
  unfold call_count in *. simpl. rewrite filter_app, length_app, IH. simpl. lia.
Qed.

End Facts.






End RetryFacts.

(** ** The video comprehension request *)

Module VideoComprehensionFacts.

Import VideoComprehension.

(** C10. The request [call_video_comprehension_api] sends upstream (URL,
    JSON body and headers) does not depend on its [video_url] argument (the
    body always carries the fixed URL [fixed_video_url]), yet the handler
    rejects an empty [video_url] with a 400 before building it. *)
Theorem request_ignores_video_url (cfg : vc_config) (api_key prompt : string)
    (fps : json) (video_url1 video_url2 : string) :
  call_video_comprehension_request cfg api_key video_url1 prompt fps =
  call_video_comprehension_request cfg api_key video_url2 prompt fps /\
  (api_key <> "" \/ config_api_key cfg <> "" ->
   validate_and_build cfg api_key "" prompt fps =
     inl (Base.send_error_response "video_comprehension" 400 "视频URL不能为空")).
Proof.
  split; [reflexivity|].
  intros Hkey. unfold validate_and_build.
  destruct (String.eqb api_key "") eqn:Ha, (String.eqb (config_api_key cfg) "") eqn:Hc;
    simpl; try reflexivity.
  apply String.eqb_eq in Ha, Hc. destruct Hkey; contradiction.
Qed.

(** C10 (witness). *)
Lemma request_ignores_video_url_witness :
  validate_and_build
    {| model := None; api_endpoint := "https://ark.cn-beijing.volces.com/api/v3/chat/completions";
       config_api_key := "" |}
    "sk-test" "" "describe the video" (JNum "1.0") =
  inl (Base.send_error_response "video_comprehension" 400 "视频URL不能为空").
Proof.
  apply (proj2 (request_ignores_video_url
                  {| model := None;
                     api_endpoint := "https://ark.cn-beijing.volces.com/api/v3/chat/completions";
                     config_api_key := "" |}
                  "sk-test" "describe the video" (JNum "1.0") "a" "b")).
  left. discriminate.
Defined.

End VideoComprehensionFacts.

(** ** The multipart decoders *)

Module MultipartFacts.

Import Py Multipart.

Definition q : string := String "034"%char "".
Definition LF : string := String "010"%char "".
Definition disp (n : string) : string :=
  "Content-Disposition: form-data; name=" ++ q ++ n ++ q.
Definition disp_file (n f : string) : string :=
  disp n ++ "; filename=" ++ q ++ f ++ q.

(** Two parts under the field name [x], with values [v1] then [v2]. *)
Definition two_x_body : string :=
  "--b" ++ CRLF ++ disp "x" ++ CRLFCRLF ++ "v1" ++ CRLF ++
  "--b" ++ CRLF ++ disp "x" ++ CRLFCRLF ++ "v2" ++ CRLF ++ "--b--" ++ CRLF.

(** One file part whose content [ab\n] ends with a line feed. *)
Definition file_lf_body : string :=
  "--b" ++ CRLF ++ disp_file "f" "a.txt" ++ CRLFCRLF ++ "ab" ++ LF ++ CRLF ++
  "--b--" ++ CRLF.

Definition ct_b : list Z := str "multipart/form-data; boundary=b".

(** C6 (code bug). The decoders do not return every value of a repeated
    field name with its original bytes: [ImageToVideoModule]'s decoder
    keeps only the last value of a repeated name (its sibling in
    [TextToVideoModule] appends), and both strip every trailing CR/LF byte
    of a part's content, so a file ending in a line feed loses it. *)
Theorem multipart_values_lost :
  i2v_parse_multipart_form_data (Some ct_b) (Some two_x_body) =
    [(str "x", [I2VText (str "v2")])] /\
  t2v_parse_multipart_form_data (Some ct_b) (Some two_x_body) =
    [(str "x", [{| content := "v1"; filename := None |};
                {| content := "v2"; filename := None |}])] /\
  t2v_parse_multipart_form_data (Some ct_b) (Some file_lf_body) =
    [(str "f", [{| content := "ab"; filename := Some (str "a.txt") |}])].
Proof. vm_compute. repeat split. Qed.

Lemma zs_eqb_spec (a b : list Z) : zs_eqb a b = true <-> a = b.
Proof.
  revert b. induction a as [|x a IH]; intros [|y b]; simpl;
    try (split; [discriminate | intros H; discriminate H]); [tauto|].
  rewrite andb_true_iff, Z.eqb_eq, IH. split.
  - intros [-> ->]. reflexivity.
  - intros H. injection H as -> ->. auto.
Qed.

Definition values_of (f : form) (name : list Z) : list mfield :=
  match py_get zs_eqb f name with Some l => l | None => [] end.

(** By contrast, the loop of [TextToVideoModule]'s decoder only ever
    appends to the list of a field name: the values a name had before a
    part is processed stay, in order, in front of the ones added after. *)
Lemma t2v_step_appends (f : form) (part : string) (name : list Z) :
  exists ext, values_of (t2v_step f part) name = (values_of f name ++ ext)%list.
Proof.
  unfold t2v_step.
  destruct (_ || _ || _); [exists []; rewrite app_nil_r; reflexivity|].
  destruct (split_once part CRLFCRLF) as [[hs c0]|];
    [|exists []; rewrite app_nil_r; reflexivity].
  destruct (name_re (decode_ignore hs)) as [fname|];
    [|exists []; rewrite app_nil_r; reflexivity].
  unfold values_of.
  destruct (list_eq_dec Z.eq_dec fname name) as [<-|Hne].
  - rewrite (PyDictFacts.py_get_set_same zs_eqb zs_eqb_spec). eexists. reflexivity.
  - rewrite (PyDictFacts.py_get_set_other zs_eqb zs_eqb_spec) by congruence.
    exists []. rewrite app_nil_r. reflexivity.
Qed.

Lemma t2v_fold_appends (parts : list string) (f : form) (name : list Z) :
  exists ext, values_of (fold_left t2v_step parts f) name = (values_of f name ++ ext)%list.
Proof.
  revert f. induction parts as [|p parts IH]; intros f; simpl.
  - exists []. rewrite app_nil_r. reflexivity.
  - destruct (t2v_step_appends f p name) as [e1 H1].
    destruct (IH (t2v_step f p)) as [e2 H2].
    exists (e1 ++ e2)%list. rewrite H2, H1, app_assoc. reflexivity.
Qed.

(** The body whose parts are delimited by [--abcd]. *)
Definition abcd_body : string :=
  "--abcd" ++ CRLF ++ disp "x" ++ CRLFCRLF ++ "v" ++ CRLF ++ "--abcd--" ++ CRLF.

(** C7 (counterexample). A boundary declaration that does not match the
    body (here [abc], truncated from the body's [abcd]) is not detected:
    the decoder splits on it and returns a non-empty mapping. *)
Lemma corrupted_boundary_nonempty :
  t2v_parse_multipart_form_data
    (Some (str "multipart/form-data; boundary=abc")) (Some abcd_body) =
  [(str "x", [{| content := "v"; filename := None |}])].
Proof. vm_compute. reflexivity. Qed.

Lemma utf8_encode_dash (l : list Z) (bb : string) :
  utf8_encode (45%Z :: l) = Some bb -> exists r, bb = String "-"%char r.
Proof.
  simpl. destruct (utf8_encode l) as [r|]; [|discriminate].
  intros H. injection H as <-. exists r. reflexivity.
Qed.

(** C7 (as amended). [TextToVideoModule.parse_multipart_form_data] returns
    a mapping on every input, an exception giving the empty one; the
    mapping is empty when the content type is [None], has no [boundary=]
    token with a non-empty value, or when the body is [None] or empty. *)
Theorem t2v_decoder_empty_cases (ct : list Z) (body : option string) :
  t2v_parse_multipart_form_data None body = [] /\
  (boundary_re ct = None -> t2v_parse_multipart_form_data (Some ct) body = []) /\
  t2v_parse_multipart_form_data (Some ct) None = [] /\
  t2v_parse_multipart_form_data (Some ct) (Some "") = [].
Proof.
  unfold t2v_parse_multipart_form_data, t2v_parse_try.
  split; [reflexivity|]. split.
  { intros H. rewrite H. reflexivity. }
  destruct (boundary_re ct) as [g|]; [|split; reflexivity].
  destruct (utf8_encode (str "--" ++ strip_quotes g)%list) as [bb|] eqn:E1;
    [|split; reflexivity].
  destruct (utf8_encode (str "--" ++ strip_quotes g ++ str "--")%list);
    [|split; reflexivity].
  split; [reflexivity|].
  destruct (utf8_encode_dash _ _ E1) as [r ->]. reflexivity.
Qed.

(** C7 (witness). *)
Lemma t2v_decoder_empty_cases_witness :
  t2v_parse_multipart_form_data (Some (str "multipart/form-data")) (Some abcd_body) = [].
Proof.
  apply (proj1 (proj2 (t2v_decoder_empty_cases (str "multipart/form-data")
                         (Some abcd_body)))).
  vm_compute. reflexivity.
Defined.

End MultipartFacts.

(** * Properties of the rest of the code *)

(** ** Keys of dictionaries *)

Module DictKeyFacts.

Section Keys.
Context {K V : Type} (eqK : K -> K -> bool)
        (eqK_spec : forall a b, eqK a b = true <-> a = b).

Lemma py_get_none_notin (d : list (K * V)) (k : K) :
  py_get eqK d k = None -> ~ In k (map fst d).
Proof.
  induction d as [|[k' v'] d IH]; simpl; [auto|].
  destruct (eqK k' k) eqn:E; [discriminate|].
  intros H [Hk|Hk]; [subst k'|].
  - assert (eqK k k = true) by (apply eqK_spec; reflexivity). congruence.
  - exact (IH H Hk).
Qed.

Lemma py_set_absent (d : list (K * V)) (k : K) (v : V) :
  py_get eqK d k = None -> py_set eqK d k v = (d ++ [(k, v)])%list.
Proof.
  induction d as [|[k' v'] d IH]; simpl; [reflexivity|].
  destruct (eqK k' k); [discriminate|]. intros H. rewrite (IH H). reflexivity.
Qed.

Lemma py_set_present_keys (d : list (K * V)) (k : K) (v : V) :
  py_get eqK d k <> None -> map fst (py_set eqK d k v) = map fst d.
Proof.
  induction d as [|[k' v'] d IH]; simpl; [congruence|].
  destruct (eqK k' k); simpl; [reflexivity|]. intros H. rewrite (IH H). reflexivity.
Qed.

Lemma NoDup_snoc {A} (l : list A) (x : A) :
  NoDup l -> ~ In x l -> NoDup (l ++ [x])%list.
Proof.
  induction 1 as [|a l Ha Hl IH]; simpl; intros Hx.
  - constructor; [auto | constructor].
  - constructor.
    + rewrite in_app_iff. simpl. intros [H|[H|H]]; [contradiction | | contradiction].
      apply Hx. left. symmetry. exact H.
    + apply IH. intros H. apply Hx. right. exact H.
Qed.

(** [d[k] = v] keeps the keys of a dict distinct. *)
Lemma py_set_NoDup (d : list (K * V)) (k : K) (v : V) :
  NoDup (map fst d) -> NoDup (map fst (py_set eqK d k v)).
Proof.
  intros Hd. destruct (py_get eqK d k) eqn:E.
  - rewrite py_set_present_keys by congruence. exact Hd.
  - rewrite py_set_absent by exact E. rewrite map_app. simpl.
    apply NoDup_snoc; [exact Hd|]. apply py_get_none_notin. exact E.
Qed.

(** [d[k] = v] keeps the keys in place and appends a new one. *)
Lemma py_set_keys_prefix (d : list (K * V)) (k : K) (v : V) :
  exists added, map fst (py_set eqK d k v) = (map fst d ++ added)%list.
Proof.
  destruct (py_get eqK d k) eqn:E.
  - exists []. rewrite app_nil_r. apply py_set_present_keys. congruence.
  - exists [k]. rewrite py_set_absent by exact E. rewrite map_app. reflexivity.
Qed.

End Keys.

End DictKeyFacts.

(** ** The uploader: results, cache and ACL *)

Module TosMoreFacts.

Import Tos TosMore.

(** Every execution of [upload_file]: a cache hit that changes nothing, a
    failure that leaves the cache alone, or a call that made exactly one
    storage write and cached its URL when caching is on; the latter answers
    a fresh success, or the error of its temporary-file clean-up. *)
Lemma upload_file_cases (md5 : string -> string) (u : uploader) (e : env)
    (st : tos_state) (content filename : string) (spr : bool) :
  let res := upload_file md5 u e st content filename spr in
  (exists url, enable_cache u = true /\
     py_get String.eqb (upload_cache st) (md5 content) = Some url /\
     res = ([("success", JBool true); ("url", JStr url); ("cached", JBool true)], st)) \/
  ((if enable_cache u then py_get String.eqb (upload_cache st) (md5 content)
    else None) = None /\
   ((exists err, fst res = [("success", JBool false); ("error", JStr err)] /\
       upload_cache (snd res) = upload_cache st) \/
    (exists url, temp_write e = None /\ cleanup e = None /\
       fst res = [("success", JBool true); ("url", JStr url);
                  ("cached", JBool false)] /\
       upload_cache (snd res) =
         (if enable_cache u then py_set String.eqb (upload_cache st) (md5 content) url
          else upload_cache st) /\
       storage_writes (commands (snd res)) = S (storage_writes (commands st))) \/
    (exists url m, temp_write e = None /\ cleanup e = Some m /\
       fst res = exc_result m /\
       upload_cache (snd res) =
         (if enable_cache u then py_set String.eqb (upload_cache st) (md5 content) url
          else upload_cache st) /\
       storage_writes (commands (snd res)) = S (storage_writes (commands st))))).
Proof.
  intros res. subst res. unfold upload_file.
  destruct (if enable_cache u then py_get String.eqb (upload_cache st) (md5 content)
            else None) as [url|] eqn:Hc.
  - left. exists url.
    destruct (enable_cache u) eqn:He; [|discriminate]. auto.
  - right. split; [reflexivity|].
    destruct (temp_write e) as [msg|] eqn:Ht; [left; eexists; split; reflexivity|].
    unfold upload_try.
    destruct (run e _) as [|err|msg];
      [| destruct (cleanup e); left; eexists; split; reflexivity
       | destruct (cleanup e); left; eexists; split; reflexivity].
    destruct spr; [destruct (run e (acl_cmd _ _)) as [|err|msg]|]; simpl;
      [| | destruct (cleanup e); left; eexists; split; reflexivity |];
      destruct (cleanup e) as [m|] eqn:Hcl;
      [right; right; do 2 eexists | right; left; eexists | right; right; do 2 eexists
      | right; left; eexists | right; right; do 2 eexists | right; left; eexists];
      (split; [reflexivity|]); (split; [reflexivity|]); (split; [reflexivity|]);
      destruct (enable_cache u); simpl;
      (split; [reflexivity|]);
      unfold storage_writes; rewrite ?filter_app, ?length_app; simpl;
      rewrite ?filter_app, ?length_app; simpl; lia.
Qed.

(** X1. [upload_file] never raises: its result is [success=true] with a
    URL and a [cached] flag, or [success=false] with an error text. A
    [cached=true] answer leaves the state unchanged (no command is run),
    and a [cached=false] success made exactly one storage write. *)
Theorem upload_file_result_shapes (md5 : string -> string) (u : uploader) (e : env)
    (st : tos_state) (content filename : string) (spr : bool) :
  let res := upload_file md5 u e st content filename spr in
  (exists url, fst res = [("success", JBool true); ("url", JStr url);
                          ("cached", JBool true)] /\ snd res = st) \/
  (exists url, fst res = [("success", JBool true); ("url", JStr url);
                          ("cached", JBool false)] /\
     storage_writes (commands (snd res)) = S (storage_writes (commands st))) \/
  (exists err, fst res = [("success", JBool false); ("error", JStr err)]).
Proof.
  intros res. subst res.
  destruct (upload_file_cases md5 u e st content filename spr)
    as [(url & _ & _ & ->)
       | (_ & [(err & Hr & _) | [(url & _ & _ & Hr & _ & Hw) | (url & m & _ & _ & Hr & _)]])].
  - left. exists url. split; reflexivity.
  - right. right. exists err. exact Hr.
  - right. left. exists url. split; assumption.
  - right. right. eexists. exact Hr.
Qed.

(** X2. [get_cache_size] counts distinct contents: if the cache keys are
    distinct before a call of [upload_file], they still are afterwards.
    The size either stays the same, or grows by one; it grows only when
    caching is on, the temporary file was written and the content was not
    cached, and the call then answers [cached=false] unless the clean-up of
    its temporary file raised, in which case it answers that error. A
    [cached=false] answer with caching on always grows the size by one. *)
Theorem upload_file_cache_size (md5 : string -> string) (u : uploader) (e : env)
    (st : tos_state) (content filename : string) (spr : bool) :
  NoDup (map fst (upload_cache st)) ->
  let res := upload_file md5 u e st content filename spr in
  NoDup (map fst (upload_cache (snd res))) /\
  (get_cache_size u (snd res) = get_cache_size u st \/
   (get_cache_size u (snd res) = S (get_cache_size u st) /\
    enable_cache u = true /\ temp_write e = None /\
    py_get String.eqb (upload_cache st) (md5 content) = None /\
    (cleanup e = None -> jget (fst res) "cached" = Some (JBool false)) /\
    (forall m, cleanup e = Some m -> fst res = exc_result m))) /\
  (enable_cache u = true -> jget (fst res) "cached" = Some (JBool false) ->
   get_cache_size u (snd res) = S (get_cache_size u st)).
Proof.
  intros Hnd res. subst res.
  destruct (upload_file_cases md5 u e st content filename spr)
    as [(url & He & _ & ->)
       | (Hmiss & [(err & Hr & Hc)
                  | [(url & Ht & Hcl & Hr & Hc & _) | (url & m & Ht & Hcl & Hr & Hc & _)]])].
  - simpl. split; [exact Hnd|]. split; [left; reflexivity|].
    intros _ H. discriminate H.
  - split; [rewrite Hc; exact Hnd|].
    unfold get_cache_size. rewrite Hc.
    split; [left; reflexivity|]. rewrite Hr. intros _ H. discriminate H.
  - (* a fresh success *)
    unfold get_cache_size. rewrite Hc.
    destruct (enable_cache u) eqn:He;
      [|split; [exact Hnd|]; split; [left; reflexivity | intros H; discriminate H]].
    rewrite (DictKeyFacts.py_set_absent String.eqb) by exact Hmiss.
    split; [|split].
    + rewrite map_app. simpl. apply DictKeyFacts.NoDup_snoc; [exact Hnd|].
      apply (DictKeyFacts.py_get_none_notin String.eqb String.eqb_eq). exact Hmiss.
    + right. rewrite length_app. simpl.
      repeat split; try assumption; [lia | intros _; rewrite Hr; reflexivity | congruence].
    + intros _ _. rewrite length_app. simpl. lia.
  - (* the URL was cached, then the clean-up raised *)
    unfold get_cache_size. rewrite Hc.
    destruct (enable_cache u) eqn:He;
      [|split; [exact Hnd|]; split; [left; reflexivity | intros H; discriminate H]].
    rewrite (DictKeyFacts.py_set_absent String.eqb) by exact Hmiss.
    split; [|split].
    + rewrite map_app. simpl. apply DictKeyFacts.NoDup_snoc; [exact Hnd|].
      apply (DictKeyFacts.py_get_none_notin String.eqb String.eqb_eq). exact Hmiss.
    + right. rewrite length_app. simpl.
      repeat split; try assumption; [lia | congruence | congruence].
    + intros _ H. rewrite Hr in H. discriminate H.
Qed.

(** X3. After [clear_cache] the cache size is 0 and the command log is
    untouched, and the next [upload_file] of any content (whose temporary
    file can be written) runs a storage write again, even for content that
    was cached before. *)
Theorem clear_cache_forgets (md5 : string -> string) (u : uploader) (e : env)
    (st : tos_state) (content filename : string) (spr : bool) :
  get_cache_size u (clear_cache u st) = 0 /\
  commands (clear_cache u st) = commands st /\
  (temp_write e = None ->
   storage_writes (commands (snd (upload_file md5 u e (clear_cache u st)
                                    content filename spr))) =
   S (storage_writes (commands st))).
Proof.
  assert (Hempty : (if enable_cache u then
                      py_get String.eqb (upload_cache (clear_cache u st)) (md5 content)
                    else None) = None).
  { unfold clear_cache. destruct (enable_cache u); [|reflexivity].
    destruct (upload_cache st) eqn:Hc; simpl; [rewrite Hc|]; reflexivity. }
  assert (Hcmds : commands (clear_cache u st) = commands st).
  { unfold clear_cache. destruct (enable_cache u); [|reflexivity].
    destruct (upload_cache st); reflexivity. }
  split; [|split; [exact Hcmds|]].
  - unfold get_cache_size, clear_cache. destruct (enable_cache u); [|reflexivity].
    destruct (upload_cache st) eqn:Hc; simpl; [rewrite Hc|]; reflexivity.
  - intros Ht.
    destruct (TosFacts.upload_file_miss md5 u e (clear_cache u st) content filename spr
                Hempty) as [[new [Hc Hw]] _].
    rewrite Hc, TosFacts.storage_writes_app, Hw, Ht, Hcmds. lia.
Qed.

(** X4. [set_acl] runs exactly one command, the same one [upload_file]
    runs for its ACL step when [acl] is [public-read]; it never writes
    storage and never touches the cache; it reports [success=true] exactly
    when that command exits with 0 (whereas [upload_file] reports success
    even when its ACL step exits with a non-zero code). *)
Theorem set_acl_effects (u : uploader) (e : env) (st : tos_state)
    (object_key acl : string) :
  let res := set_acl u e st object_key acl in
  commands (snd res) = (commands st ++ [set_acl_cmd u object_key acl])%list /\
  upload_cache (snd res) = upload_cache st /\
  storage_writes (commands (snd res)) = storage_writes (commands st) /\
  set_acl_cmd u object_key "public-read" = acl_cmd u object_key /\
  jget (fst res) "success" =
    Some (JBool (match run e (set_acl_cmd u object_key acl) with
                 | ProcOk => true | _ => false end)).
Proof.
  intros res. subst res. unfold set_acl.
  assert (Hw : storage_writes (commands st ++ [set_acl_cmd u object_key acl]) =
               storage_writes (commands st)).
  { rewrite TosFacts.storage_writes_app. unfold storage_writes. simpl. lia. }
  destruct (run e (set_acl_cmd u object_key acl)); simpl;
    repeat split; (reflexivity || exact Hw).
Qed.

(** X2 (witness). *)
Lemma upload_file_cache_size_witness :
  get_cache_size TosFacts.demo_uploader
    (snd (upload_file TosFacts.demo_md5 TosFacts.demo_uploader
            (TosFacts.env_all ProcOk "20250101_000000") TosFacts.st0 "hello" "a.txt" false)) =
  S (get_cache_size TosFacts.demo_uploader TosFacts.st0).
Proof.
  apply (proj2 (proj2 (upload_file_cache_size TosFacts.demo_md5 TosFacts.demo_uploader
           (TosFacts.env_all ProcOk "20250101_000000") TosFacts.st0 "hello" "a.txt" false
           (NoDup_nil _)))); vm_compute; reflexivity.
Defined.

End TosMoreFacts.

(** ** Module registration, static files and error payloads *)

Module RoutingMoreFacts.

Import Routing.

Definition add_routes (rs : list string) (m : module) (rm : route_map) : route_map :=
  fold_left (fun rm r => py_set String.eqb rm r m) rs rm.

Lemma add_routes_other (rs : list string) (m : module) (rm : route_map) (k : string) :
  ~ In k rs -> py_get String.eqb (add_routes rs m rm) k = py_get String.eqb rm k.
Proof.
  unfold add_routes. revert rm.
  induction rs as [|r rs IH]; intros rm Hk; simpl; [reflexivity|].
  rewrite IH by (intros H; apply Hk; right; exact H).
  apply PyDictFacts.py_get_set_other; [exact String.eqb_eq|].
  intros ->. apply Hk. left. reflexivity.
Qed.

Lemma add_routes_mem (rs : list string) (m : module) (rm : route_map) (k : string) :
  In k rs -> py_get String.eqb (add_routes rs m rm) k = Some m.
Proof.
  unfold add_routes. revert rm.
  induction rs as [|r rs IH]; intros rm Hk; simpl; [destruct Hk|].
  destruct (in_dec string_dec k rs) as [Hin|Hnin].
  - apply IH. exact Hin.
  - fold (add_routes rs m (py_set String.eqb rm r m)).
    rewrite add_routes_other by exact Hnin.
    destruct Hk as [->|Hk]; [|contradiction].
    apply PyDictFacts.py_get_set_same. exact String.eqb_eq.
Qed.

Lemma add_routes_keys (rs : list string) (m : module) (rm : route_map) :
  exists added, map fst (add_routes rs m rm) = (map fst rm ++ added)%list.
Proof.
  unfold add_routes. revert rm.
  induction rs as [|r rs IH]; intros rm; simpl.
  - exists []. rewrite app_nil_r. reflexivity.
  - destruct (IH (py_set String.eqb rm r m)) as [a2 H2].
    destruct (DictKeyFacts.py_set_keys_prefix String.eqb rm r m) as [a1 H1].
    exists (a1 ++ a2)%list. rewrite H2, H1, app_assoc. reflexivity.
Qed.

(** X5. [register_module] leaves the route table unchanged when the
    module's [initialize()] fails; when it succeeds, every route of the
    module resolves to it (also through [find_module_for_path]), every
    other key keeps its module, and the keys already in the table keep
    their order, new keys being appended after them. *)
Theorem register_module_effect (rm : route_map) (m : module) :
  register_module rm m false = (false, rm) /\
  fst (register_module rm m true) = true /\
  (forall r, In r (routes m) ->
     py_get String.eqb (snd (register_module rm m true)) r = Some m /\
     find_module_for_path (snd (register_module rm m true)) r = Some m) /\
  (forall k, ~ In k (routes m) ->
     py_get String.eqb (snd (register_module rm m true)) k = py_get String.eqb rm k) /\
  (exists added, map fst (snd (register_module rm m true)) = (map fst rm ++ added)%list).
Proof.
  split; [reflexivity|]. split; [reflexivity|].
  change (snd (register_module rm m true)) with (add_routes (routes m) m rm).
  split; [|split].
  - intros r Hr. rewrite add_routes_mem by exact Hr. split; [reflexivity|].
    unfold find_module_for_path. rewrite add_routes_mem by exact Hr. reflexivity.
  - intros k Hk. apply add_routes_other. exact Hk.
  - apply add_routes_keys.
Qed.

(** X6. A GET path that starts with [/static/] or ends in [.css], [.js],
    [.png], [.jpg] or [.ico] is always served as a static file (its leading
    slashes stripped), whatever the route table holds: such a path never
    reaches a module by GET, even when a module's prefix route matches it. *)
Theorem get_static_paths_skip_modules
    (handle : module -> string -> string -> Base.module_response)
    (rm : route_map) (path : string) :
  String.prefix "/static/" path = true \/
  existsb (endswith path) [".css"; ".js"; ".png"; ".jpg"; ".ico"] = true ->
  do_GET handle rm path = ServeStatic (lstrip_slash path).
Proof.
  intros Hs. unfold do_GET.
  repeat match goal with
         | |- context [String.eqb path ?lit] =>
             let E := fresh "E" in
             destruct (String.eqb path lit) eqn:E;
             [apply String.eqb_eq in E; subst path; vm_compute in Hs;
              destruct Hs; discriminate | rewrite ?orb_false_l ]
         end.
  destruct (String.prefix "/frontend/" path); [reflexivity|].
  destruct Hs as [H|H]; rewrite H; [reflexivity|]. rewrite orb_true_r. reflexivity.
Qed.

Lemma lstrip_slash_cons (c : ascii) (s : string) :
  lstrip_slash (String c s) =
  if Ascii.eqb c "/"%char then lstrip_slash s else String c s.
Proof.
  unfold lstrip_slash. simpl. destruct (Ascii.eqb c "/"%char); [reflexivity|].
  simpl. rewrite string_of_list_ascii_of_string. reflexivity.
Qed.

(** Stripping the leading slashes keeps every [..] of a path. *)
Lemma lstrip_slash_dotdot (s : string) :
  Str.contains ".." s = true -> Str.contains ".." (lstrip_slash s) = true.
Proof.
  induction s as [|c s IH]; [discriminate|].
  rewrite lstrip_slash_cons.
  destruct (Ascii.eqb c "/"%char) eqn:Hc; [|auto].
  apply Ascii.eqb_eq in Hc. subst c. simpl. exact IH.
Qed.

(** X7. No GET request whose path contains [..] is answered with a file:
    when [do_GET] hands such a path to [serve_static_file], the latter
    answers 403, whatever the file system holds. *)
Theorem get_dotdot_forbidden
    (handle : module -> string -> string -> Base.module_response)
    (rm : route_map) (server_dir : string) (fs : Static.filesystem)
    (path file_path : string) :
  Str.contains ".." path = true ->
  do_GET handle rm path = ServeStatic file_path ->
  Static.serve_static_file server_dir fs file_path = Static.Forbidden.
Proof.
  intros Hdd Hget.
  assert (Hfp : file_path = lstrip_slash path).
  { unfold do_GET in Hget.
    repeat match type of Hget with
           | context [String.eqb path ?lit] =>
               let E := fresh "E" in
               destruct (String.eqb path lit) eqn:E;
               [apply String.eqb_eq in E; subst path; vm_compute in Hdd;
                discriminate | rewrite ?orb_false_l in Hget ]
           end.
    destruct (String.prefix "/frontend/" path); [congruence|].
    destruct (_ || _); [congruence|].
    destruct (find_module_for_path rm path); discriminate. }
  subst file_path. unfold Static.serve_static_file.
  rewrite (lstrip_slash_dotdot path Hdd). reflexivity.
Qed.

Definition demo_fs : Static.filesystem :=
  {| Static.path_exists := fun _ => true; Static.path_isfile := fun _ => true;
     Static.read_file := fun _ => Some "x"; Static.guess_type := fun _ => None |}.

(** X6 (witness). *)
Lemma get_static_paths_skip_modules_witness :
  do_GET RoutingFacts.echo_handle RoutingFacts.demo_rm "/task_status/x.png" =
  ServeStatic (lstrip_slash "/task_status/x.png").
Proof.
  apply (get_static_paths_skip_modules RoutingFacts.echo_handle RoutingFacts.demo_rm
           "/task_status/x.png").
  right. vm_compute. reflexivity.
Defined.

(** X7 (witness). *)
Lemma get_dotdot_forbidden_witness :
  Static.serve_static_file "/srv" demo_fs (lstrip_slash "/static/../secret.png") =
  Static.Forbidden.
Proof.
  apply (get_dotdot_forbidden RoutingFacts.echo_handle RoutingFacts.demo_rm "/srv" demo_fs
           "/static/../secret.png" (lstrip_slash "/static/../secret.png")).
  - vm_compute. reflexivity.
  - vm_compute. reflexivity.
Defined.

End RoutingMoreFacts.

Module ErrorMoreFacts.

Lemma fold_py_set_NoDup (extra payload : list (string * json)) :
  NoDup (map fst payload) ->
  NoDup (map fst (fold_left (fun p kv => py_set String.eqb p (fst kv) (snd kv))
                    extra payload)).
Proof.
  revert payload. induction extra as [|kv extra IH]; intros payload H; simpl; [exact H|].
  apply IH. apply (DictKeyFacts.py_set_NoDup String.eqb String.eqb_eq). exact H.
Qed.

(** After [payload.update(extra)] a key of [extra] holds the value of its
    last occurrence in [extra]. *)
Lemma fold_py_set_last (extra payload : list (string * json)) (k : string) :
  In k (map fst extra) ->
  jget (fold_left (fun p kv => py_set String.eqb p (fst kv) (snd kv)) extra payload) k =
  jget (rev extra) k.
Proof.
  induction extra as [|[k' v'] extra IH] using rev_ind; intros Hk; [destruct Hk|].
  rewrite fold_left_app, rev_app_distr. simpl.
  unfold jget at 2. simpl.
  destruct (String.eqb k' k) eqn:E.
  - apply String.eqb_eq in E. subst k'.
    apply PyDictFacts.py_get_set_same. exact String.eqb_eq.
  - unfold jget. rewrite PyDictFacts.py_get_set_other;
      [| exact String.eqb_eq | intros ->; rewrite String.eqb_refl in E; discriminate].
    apply IH. rewrite map_app in Hk. apply in_app_or in Hk as [Hk|Hk]; [exact Hk|].
    simpl in Hk. destruct Hk as [->|[]]. rewrite String.eqb_refl in E. discriminate.
Qed.

(** X8. The payload of [build_error_response] never repeats a key; a key
    given in [extra] holds its last value there (overriding [success],
    [error], [module] and the optional keys); otherwise [upstream_error] is
    present exactly when an upstream error is given (even a falsy one),
    [error_response_content] exactly when the raw text is non-empty, and
    [error] is the base error message. *)
Theorem build_error_response_payload (self_name : string) (code : nat)
    (base_error : string) (upstream : option json) (raw : option string)
    (extra : list (string * json)) :
  let b := Base.body (Base.build_error_response self_name code base_error upstream raw extra) in
  NoDup (map fst b) /\
  (forall k, In k (map fst extra) -> jget b k = jget (rev extra) k) /\
  (~ In "upstream_error" (map fst extra) -> jget b "upstream_error" = upstream) /\
  (~ In "error_response_content" (map fst extra) ->
   jget b "error_response_content" =
     match raw with
     | Some t => if String.eqb t "" then None else Some (JStr t)
     | None => None
     end) /\
  (~ In "error" (map fst extra) -> jget b "error" = Some (JStr base_error)).
Proof.
  intros b. subst b. unfold Base.build_error_response, Base.send_json_response.
  cbv beta zeta iota delta [Base.body].
  assert (Hnot : forall k, ~ In k (map fst extra) ->
            forallb (fun kv => negb (String.eqb (fst kv) k)) extra = true).
  { intros k Hk. apply forallb_forall. intros [k' v'] Hin. simpl.
    destruct (String.eqb k' k) eqn:E; [|reflexivity].
    apply String.eqb_eq in E. subst k'. exfalso. apply Hk.
    apply (in_map fst) in Hin. exact Hin. }
  split; [|split; [|split; [|split]]].
  - apply fold_py_set_NoDup.
    destruct raw as [t|]; [destruct (String.eqb t "")|];
      destruct upstream as [u|]; simpl;
      repeat (constructor; [simpl; intuition discriminate|]); constructor.
  - intros k Hk. apply fold_py_set_last. exact Hk.
  - intros Hk. rewrite ErrorFacts.fold_py_set_preserves by (apply Hnot; exact Hk).
    destruct raw as [t|]; [destruct (String.eqb t "")|];
      destruct upstream as [u|]; reflexivity.
  - intros Hk. rewrite ErrorFacts.fold_py_set_preserves by (apply Hnot; exact Hk).
    destruct raw as [t|]; [destruct (String.eqb t "") eqn:Et|];
      destruct upstream as [u|]; reflexivity.
  - intros Hk. rewrite ErrorFacts.fold_py_set_preserves by (apply Hnot; exact Hk).
    destruct raw as [t|]; [destruct (String.eqb t "")|];
      destruct upstream as [u|]; reflexivity.
Qed.

End ErrorMoreFacts.


(** ** The poll loop: bounds and early exits *)

Module PollMoreFacts.

Import Poll.

Section Loop.

Variable base_url task_id : string.
Variable max_attempts interval : Z.
Variable server : nat -> get_outcome.

Lemma request_count_cons2 (url : string) (evs : list event) :
  request_count (Request url :: Sleep interval :: evs) = S (request_count evs).
Proof. reflexivity. Qed.

Lemma poll_go_requests_le (fuel a : nat) :
  request_count (snd (poll_go base_url task_id max_attempts interval server fuel a)) <= fuel.
Proof.
  revert a. induction fuel as [|fuel IH]; intros a; simpl; [apply le_n|].
  specialize (IH (S a)).
  destruct (poll_go _ _ _ _ _ fuel (S a)) as [res evs]. simpl in IH.
  destruct (attempt_body (server a)) as [r| |m];
    repeat match goal with |- context [if ?b then _ else _] => destruct b end;
    simpl; solve [rewrite request_count_cons2; lia | apply le_n_S, le_0_n].
Qed.



End Loop.

(** X9. [query_task_status] makes at most [max_attempts] status requests,
    whatever the server answers; with [max_attempts <= 0] it makes none and
    returns the timeout result. *)
Theorem query_requests_bounded (base_url task_id : string) (max_attempts interval : Z)
    (server : nat -> get_outcome) :
  request_count (snd (query_task_status base_url task_id max_attempts interval server))
    <= Z.to_nat max_attempts /\
  ((max_attempts <= 0)%Z ->
   query_task_status base_url task_id max_attempts interval server =
     (PyReturn (timeout_result max_attempts), [])).
Proof.
  split.
  - unfold query_task_status.
    pose proof (poll_go_requests_le base_url task_id max_attempts interval server
                  (Z.to_nat max_attempts) 0) as H.
    destruct (poll_go _ _ _ _ _ _ _) as [[r|] evs]; exact H.
  - intros Hle. unfold query_task_status.
    replace (Z.to_nat max_attempts) with 0 by lia. reflexivity.
Qed.




End PollMoreFacts.

(** ** Retry: the shape of every run *)

Module RetryMoreFacts.

Import Retry.

(** With a negative [retry_delay], every attempt after the first ends in
    the [ValueError] of [time.sleep], before any call. *)
Lemma retry_go_negative_delay (py_lower : string -> string)
    (max_retries retry_delay : Z) (api : nat -> cv_outcome) (fuel : nat) :
  (retry_delay < 0)%Z ->
  forall a, 0 < a ->
  snd (retry_go py_lower max_retries retry_delay api fuel a) = [].
Proof.
  intros Hd. induction fuel as [|fuel IH]; intros a Ha; simpl; [reflexivity|].
  replace (Nat.ltb 0 a) with true by (symmetry; apply Nat.ltb_lt; exact Ha).
  replace (retry_delay <? 0)%Z with true by (symmetry; apply Z.ltb_lt; exact Hd).
  simpl. destruct (_ || _); [apply IH; lia | reflexivity].
Qed.

Lemma retry_go_events (py_lower : string -> string) (max_retries retry_delay : Z)
    (api : nat -> cv_outcome) (fuel : nat) :
  forall a, exists n, n <= fuel /\ (fuel <> 0 -> a = 0 -> n <> 0) /\
    snd (retry_go py_lower max_retries retry_delay api fuel a) =
      RetryFacts.events_of retry_delay a n.
Proof.
  induction fuel as [|fuel IH]; intros a; simpl.
  - exists 0. split; [lia|]. split; [congruence | reflexivity].
  - destruct (Nat.ltb 0 a && (retry_delay <? 0)%Z) eqn:Hneg.
    { apply andb_true_iff in Hneg as [Ha Hd].
      apply Nat.ltb_lt in Ha. apply Z.ltb_lt in Hd.
      exists 0. split; [lia|]. split; [lia|].
      destruct (_ || _); [apply retry_go_negative_delay; [exact Hd | lia]
                         | reflexivity]. }
    destruct (api a) as [resp|m].
    + exists 1. split; [lia|]. split; [lia|]. simpl.
      unfold RetryFacts.events_of, RetryFacts.attempt_events. simpl.
      rewrite app_nil_r. reflexivity.
    + destruct (IH (S a)) as (n & Hn & _ & Hev).
      destruct (is_timeout py_lower m || is_network_error py_lower m).
      * exists (S n). split; [lia|]. split; [lia|].
        rewrite RetryFacts.events_of_S.
        destruct (Z.of_nat a <? max_retries)%Z;
          destruct (retry_go _ _ _ _ fuel (S a)) as [r evs]; simpl in *; rewrite Hev;
          reflexivity.
      * exists 1. split; [lia|]. split; [lia|]. simpl.
        unfold RetryFacts.events_of, RetryFacts.attempt_events. simpl.
        rewrite app_nil_r. reflexivity.
Qed.

(** X11. Whatever the API does, [_call_api_with_retry] makes between 1
    and [max_retries + 1] calls, separated by one sleep of [retry_delay]
    each, and never sleeps after the last call; with a negative
    [max_retries] it makes no call at all and returns [None]. *)
Theorem retry_calls_bounded (py_lower : string -> string) (max_retries retry_delay : Z)
    (api : nat -> cv_outcome) :
  ((max_retries < 0)%Z ->
   call_api_with_retry py_lower max_retries retry_delay api = (JNull, [])) /\
  ((0 <= max_retries)%Z ->
   exists k, k <= Z.to_nat max_retries /\
     snd (call_api_with_retry py_lower max_retries retry_delay api) =
       retry_trace retry_delay k /\
     call_count (snd (call_api_with_retry py_lower max_retries retry_delay api)) = S k).
Proof.
  split.
  - intros Hneg. unfold call_api_with_retry.
    replace (Z.to_nat (max_retries + 1)) with 0 by lia. reflexivity.
  - intros Hpos. unfold call_api_with_retry.
    replace (Z.to_nat (max_retries + 1)) with (S (Z.to_nat max_retries)) by lia.
    destruct (retry_go_events py_lower max_retries retry_delay api
                (S (Z.to_nat max_retries)) 0) as (n & Hn & Hnz & Hev).
    destruct n as [|k]; [exfalso; apply Hnz; [discriminate | reflexivity | reflexivity]|].
    exists k. rewrite Hev, RetryFacts.events_of_zero.
    split; [lia|]. split; [reflexivity|]. apply RetryFacts.call_count_trace.
Qed.

End RetryMoreFacts.

(** ** The multipart decoders: what the loops keep *)

Module MultipartMoreFacts.

Import Py Multipart.

Section Loops.

Context {A : Type}.

(** [form_data.get(name, [])] *)
Definition vals (f : list (list Z * list A)) (name : list Z) : list A :=
  match py_get zs_eqb f name with Some l => l | None => [] end.

(** A loop body that appends the value a part yields under its name. *)
Definition append_step (pf : string -> option (list Z * A))
    (f : list (list Z * list A)) (part : string) : list (list Z * list A) :=
  match pf part with
  | None => f
  | Some (n, x) => py_set zs_eqb f n (vals f n ++ [x])%list
  end.

(** The values the parts yield under [name], in order. *)
Definition named (pf : string -> option (list Z * A)) (name : list Z)
    (parts : list string) : list A :=
  flat_map (fun p => match pf p with
                     | Some (n, x) => if zs_eqb n name then [x] else []
                     | None => [] end) parts.

Lemma append_fold (pf : string -> option (list Z * A)) (parts : list string)
    (f : list (list Z * list A)) (name : list Z) :
  vals (fold_left (append_step pf) parts f) name = (vals f name ++ named pf name parts)%list.
Proof.
  revert f. induction parts as [|p parts IH]; intros f; simpl.
  - rewrite app_nil_r. reflexivity.
  - rewrite IH. rewrite app_assoc. f_equal.
    unfold append_step. destruct (pf p) as [[n x]|]; [|rewrite app_nil_r; reflexivity].
    destruct (zs_eqb n name) eqn:E.
    + apply MultipartFacts.zs_eqb_spec in E. subst n. unfold vals at 1.
      rewrite (PyDictFacts.py_get_set_same zs_eqb MultipartFacts.zs_eqb_spec). reflexivity.
    + unfold vals at 1.
      rewrite (PyDictFacts.py_get_set_other zs_eqb MultipartFacts.zs_eqb_spec);
        [rewrite app_nil_r; reflexivity|].
      intros Heq. subst name.
      rewrite (proj2 (MultipartFacts.zs_eqb_spec n n) eq_refl) in E. discriminate.
Qed.

End Loops.

Lemma fold_left_ext {B C : Type} (s1 s2 : B -> C -> B) (l : list C) (b : B) :
  (forall b c, s1 b c = s2 b c) -> fold_left s1 l b = fold_left s2 l b.
Proof.
  intros H. revert b. induction l as [|c l IH]; intros b; simpl; [reflexivity|].
  rewrite H. apply IH.
Qed.

(** The field a part adds in [TextToVideoModule]'s loop. *)
Definition t2v_part_field (part : string) : option (list Z * mfield) :=
  if String.eqb part "" || String.eqb part CRLF || String.prefix "--" part then None
  else
    match split_once part CRLFCRLF with
    | None => None
    | Some (headers_section, content0) =>
        let headers_text := decode_ignore headers_section in
        match name_re headers_text with
        | None => None
        | Some n => Some (n, {| content := rstrip is_crlf content0;
                                filename := filename_re headers_text |})
        end
    end.

(** The field a part adds in [SeedreamModule]'s loop. *)
Definition sd_part_field (part : string) : option (list Z * Seedream.sd_field) :=
  if bytes_strip_empty part then None
  else
    match split_once part CRLFCRLF with
    | None => None
    | Some (headers_section, content0) =>
        let headers_text := decode_ignore headers_section in
        match name_re headers_text with
        | None => None
        | Some n => Some (n, {| Seedream.sd_content := rstrip is_crlf content0;
                                Seedream.sd_headers := headers_text;
                                Seedream.sd_filename := filename_re headers_text |})
        end
    end.

Lemma t2v_step_is_append (f : form) (part : string) :
  t2v_step f part = append_step t2v_part_field f part.
Proof.
  unfold t2v_step, append_step, t2v_part_field.
  destruct (String.eqb part "" || String.eqb part CRLF || String.prefix "--" part);
    [reflexivity|].
  destruct (split_once part CRLFCRLF) as [[hs c0]|]; [|reflexivity].
  destruct (name_re (decode_ignore hs)); reflexivity.
Qed.

Lemma sd_step_is_append (f : Seedream.sd_form) (part : string) :
  Seedream.sd_step f part = append_step sd_part_field f part.
Proof.
  unfold Seedream.sd_step, append_step, sd_part_field.
  destruct (bytes_strip_empty part); [reflexivity|].
  destruct (split_once part CRLFCRLF) as [[hs c0]|]; [|reflexivity].
  destruct (name_re (decode_ignore hs)); reflexivity.
Qed.

(** X12. The loops of the [TextToVideoModule] and [SeedreamModule]
    decoders lose no part: under each field name they keep one entry per
    part that carries that name, in the order of the body. *)
Theorem decoders_keep_every_part (parts : list string) (name : list Z) :
  vals (fold_left t2v_step parts []) name = named t2v_part_field name parts /\
  vals (fold_left Seedream.sd_step parts []) name = named sd_part_field name parts.
Proof.
  split.
  - rewrite (fold_left_ext t2v_step (append_step t2v_part_field))
      by exact t2v_step_is_append.
    exact (append_fold t2v_part_field parts [] name).
  - rewrite (fold_left_ext Seedream.sd_step (append_step sd_part_field))
      by exact sd_step_is_append.
    exact (append_fold sd_part_field parts [] name).
Qed.

(** The value a part stores in [VideoComprehensionModule]'s loop. *)
Definition vc_part_field (part : string) : option (list Z * VC.vc_value) :=
  if bytes_strip_empty part then None
  else
    match split_once part CRLFCRLF with
    | None => None
    | Some (headers_section, content0) =>
        let content := rstrip is_crlf content0 in
        let headers_text := decode_ignore headers_section in
        match name_re headers_text with
        | None => None
        | Some n =>
            match filename_re headers_text with
            | Some fn => Some (n, VC.VCFile content fn)
            | None => Some (n, VC.VCText (decode_ignore content))
            end
        end
    end.

(** A file value replaces the list of its name, a text value is appended. *)
Definition vc_merge (old : list VC.vc_value) (v : VC.vc_value) : list VC.vc_value :=
  match v with
  | VC.VCFile _ _ => [v]
  | VC.VCText _ => (old ++ [v])%list
  end.

Lemma vc_step_merge (f : VC.vc_form) (part : string) :
  VC.vc_step f part =
  match vc_part_field part with
  | None => f
  | Some (n, x) => py_set zs_eqb f n (vc_merge (vals f n) x)
  end.
Proof.
  unfold VC.vc_step, vc_part_field.
  destruct (bytes_strip_empty part); [reflexivity|].
  destruct (split_once part CRLFCRLF) as [[hs c0]|]; [|reflexivity].
  destruct (name_re (decode_ignore hs)); [|reflexivity].
  destruct (filename_re (decode_ignore hs)); reflexivity.
Qed.

Lemma vc_fold_merge (parts : list string) (f : VC.vc_form) (name : list Z) :
  vals (fold_left VC.vc_step parts f) name =
  fold_left vc_merge (named vc_part_field name parts) (vals f name).
Proof.
  revert f. induction parts as [|p parts IH]; intros f; simpl; [reflexivity|].
  rewrite IH, vc_step_merge. unfold named at 2. simpl.
  rewrite fold_left_app. fold (named vc_part_field name parts). f_equal.
  destruct (vc_part_field p) as [[n x]|]; [|reflexivity].
  destruct (zs_eqb n name) eqn:E.
  - apply MultipartFacts.zs_eqb_spec in E. subst n. unfold vals at 1.
    rewrite (PyDictFacts.py_get_set_same zs_eqb MultipartFacts.zs_eqb_spec). reflexivity.
  - unfold vals at 1.
    rewrite (PyDictFacts.py_get_set_other zs_eqb MultipartFacts.zs_eqb_spec);
      [reflexivity|].
    intros Heq. subst name.
    rewrite (proj2 (MultipartFacts.zs_eqb_spec n n) eq_refl) in E. discriminate.
Qed.

Definition is_text (v : VC.vc_value) : bool :=
  match v with VC.VCText _ => true | VC.VCFile _ _ => false end.

Lemma merge_texts (post old : list VC.vc_value) :
  forallb is_text post = true -> fold_left vc_merge post old = (old ++ post)%list.
Proof.
  revert old. induction post as [|v post IH]; intros old H; simpl; [rewrite app_nil_r; reflexivity|].
  simpl in H. apply andb_prop in H as [Hv H].
  destruct v as [c fn|t]; [discriminate|]. simpl. rewrite IH by exact H.
  rewrite <- app_assoc. reflexivity.
Qed.

(** X21. In [VideoComprehensionModule]'s decoder a file part replaces
    every earlier value of its name, while a plain part is appended: when
    the values the parts give a name end with a file followed only by
    plain values, the name maps to that last file, then those plain values
    (so [form_data[name][0]] is the last file uploaded under the name). *)
Theorem vc_last_file_wins (parts : list string) (name : list Z)
    (pre post : list VC.vc_value) (c : string) (fn : list Z) :
  named vc_part_field name parts = (pre ++ VC.VCFile c fn :: post)%list ->
  forallb is_text post = true ->
  vals (fold_left VC.vc_step parts []) name = VC.VCFile c fn :: post.
Proof.
  intros Hn Hpost. rewrite vc_fold_merge, Hn, fold_left_app. simpl.
  rewrite merge_texts by exact Hpost. reflexivity.
Qed.

Definition video_twice_body : string :=
  "--b" ++ CRLF ++ MultipartFacts.disp_file "video" "a.mp4" ++ CRLFCRLF ++ "A" ++ CRLF ++
  "--b" ++ CRLF ++ MultipartFacts.disp_file "video" "b.mp4" ++ CRLFCRLF ++ "B" ++ CRLF ++
  "--b--" ++ CRLF.

(** X21 (witness). *)
Lemma vc_last_file_wins_witness :
  vals (fold_left VC.vc_step
          (inner_parts (split_go 100 ("--b") video_twice_body)) []) (str "video") =
  [VC.VCFile "B" (str "b.mp4")].
Proof.
  apply (vc_last_file_wins _ (str "video") [VC.VCFile "A" (str "a.mp4")] [] "B" (str "b.mp4")).
  - vm_compute. reflexivity.
  - reflexivity.
Defined.

End MultipartMoreFacts.

(** ** Seedream: the end of [handle_seedream_generate] *)

Module SeedreamFacts.

Section Finish.

Variables (dumps200 data_error_text : json -> string).
Variables (prompt : string) (seed scale : json) (image_urls : list string).



End Finish.

End SeedreamFacts.

(** ** src/modules/text_to_video_module.py *)

Module T2VFacts.

Import Py Multipart.

Lemma string_app_assoc (a b c : string) : (a ++ b) ++ c = a ++ (b ++ c).
Proof. induction a as [|x a IH]; simpl; [reflexivity|]. rewrite IH. reflexivity. Qed.

Lemma string_app_nil_r (a : string) : a ++ "" = a.
Proof. induction a as [|x a IH]; simpl; [reflexivity|]. rewrite IH. reflexivity. Qed.

Lemma string_prefix_app (a b : string) : String.prefix a (a ++ b) = true.
Proof.
  induction a as [|x a IH]; simpl; [destruct b; reflexivity|].
  destruct (ascii_dec x x) as [_|n]; [exact IH|congruence].
Qed.

Lemma string_eqb_refl (s : string) : String.eqb s s = true.
Proof. apply String.eqb_eq. reflexivity. Qed.

(** X14. The request [_create_video_task] sends. Its content is the
    enhanced prompt followed by the image items: none for [text_to_video]
    and for an unknown video type, one for [image_to_video_first_frame],
    and for [image_to_video_first_last_frame] one, or two when a last frame
    URL is given. A model type containing [pro] selects the pro model for
    every video type, and a missing model type selects the lite model of
    the video type. The [Authorization] header carries the key of the
    request when it is non-empty, and the configured key otherwise. *)
Theorem t2v_task_request_shape (config_api_key prompt video_type : string)
    (ff lf resolution aspect_ratio : option string) (duration seed : option Z)
    (fixed_camera : bool) (model_type api_key : option string) :
  let req := T2V.create_video_task_request config_api_key prompt video_type ff lf
               resolution aspect_ratio duration seed fixed_camera model_type api_key in
  (exists text items,
     T2V.tr_body req =
       JObj [("model", JStr (T2V.model_name_of video_type model_type));
             ("content", JList (text :: items))] /\
     text = JObj [("type", JStr "text");
                  ("text", JStr (T2V.enhanced_prompt prompt resolution aspect_ratio
                                   duration seed fixed_camera))] /\
     length items =
       (if String.eqb video_type "text_to_video" then 0
        else if String.eqb video_type "image_to_video_first_frame" then 1
        else if String.eqb video_type "image_to_video_first_last_frame" then
          (if T2V.truthy_str lf then 2 else 1)
        else 0)) /\
  (forall m, Str.contains "pro" m = true ->
     T2V.model_name_of video_type (Some m) = "doubao-seedance-1-0-pro-250528") /\
  T2V.model_name_of video_type None =
    (if String.eqb video_type "text_to_video" then "doubao-seedance-1-0-lite-t2v-250428"
     else "doubao-seedance-1-0-lite-i2v-250428") /\
  T2V.tr_authorization req =
    "Bearer " ++ (match api_key with
                  | Some k => if String.eqb k "" then config_api_key else k
                  | None => config_api_key end).
Proof.
  split; [|split; [|split]].
  - eexists _, _. split; [reflexivity|]. split; [reflexivity|].
    destruct (String.eqb video_type "text_to_video"); [reflexivity|].
    destruct (String.eqb video_type "image_to_video_first_frame"); [reflexivity|].
    destruct (String.eqb video_type "image_to_video_first_last_frame"); [|reflexivity].
    destruct (T2V.truthy_str lf); reflexivity.
  - intros m Hm. unfold T2V.model_name_of.
    destruct (String.eqb m "") eqn:E.
    + apply String.eqb_eq in E. subst m. discriminate Hm.
    + rewrite Hm. destruct (String.eqb video_type "text_to_video"); reflexivity.
  - reflexivity.
  - reflexivity.
Qed.

(** X15. The flags [_create_video_task] appends to the prompt: the prompt
    is always a prefix of the enhanced prompt; a duration of 0 adds nothing,
    like a missing one; a seed adds [ --seed] and its decimal value after
    the other flags; [fixed_camera] adds [ --cf True] last. *)
Theorem enhanced_prompt_flags (prompt : string) (resolution aspect_ratio : option string)
    (duration seed : option Z) (fixed_camera : bool) :
  String.prefix prompt
    (T2V.enhanced_prompt prompt resolution aspect_ratio duration seed fixed_camera) = true /\
  T2V.enhanced_prompt prompt resolution aspect_ratio (Some 0%Z) seed fixed_camera =
    T2V.enhanced_prompt prompt resolution aspect_ratio None seed fixed_camera /\
  (forall z, T2V.enhanced_prompt prompt resolution aspect_ratio duration (Some z) false =
     T2V.enhanced_prompt prompt resolution aspect_ratio duration None false ++
     " --seed " ++ Dec.z_to_string z) /\
  T2V.enhanced_prompt prompt resolution aspect_ratio duration seed true =
    T2V.enhanced_prompt prompt resolution aspect_ratio duration seed false ++ " --cf True".
Proof.
  split; [|split; [|split]].
  - unfold T2V.enhanced_prompt.
    set (p1 := match resolution with
               | Some r => if String.eqb r "" then prompt else prompt ++ " --rs " ++ r
               | None => prompt end).
    assert (H1 : exists t, p1 = prompt ++ t).
    { subst p1. destruct resolution as [r|]; [destruct (String.eqb r "")|];
        [exists ""; symmetry; apply string_app_nil_r| eexists; reflexivity|
         exists ""; symmetry; apply string_app_nil_r]. }
    clearbody p1.
    set (p2 := match aspect_ratio with
               | Some a => if String.eqb a "" then p1 else p1 ++ " --rt " ++ a
               | None => p1 end).
    assert (H2 : exists t, p2 = prompt ++ t).
    { destruct H1 as [t ->]. subst p2. destruct aspect_ratio as [a|];
        [destruct (String.eqb a "")|];
        [exists t; reflexivity| eexists; apply string_app_assoc| exists t; reflexivity]. }
    clearbody p2. clear H1.
    set (p3 := match duration with
               | Some d => if Z.eqb d 0 then p2 else p2 ++ " --dur " ++ Dec.z_to_string d
               | None => p2 end).
    assert (H3 : exists t, p3 = prompt ++ t).
    { destruct H2 as [t ->]. subst p3. destruct duration as [d|];
        [destruct (Z.eqb d 0)|];
        [exists t; reflexivity| eexists; apply string_app_assoc| exists t; reflexivity]. }
    clearbody p3. clear H2.
    set (p4 := match seed with
               | Some s => p3 ++ " --seed " ++ Dec.z_to_string s
               | None => p3 end).
    assert (H4 : exists t, p4 = prompt ++ t).
    { destruct H3 as [t ->]. subst p4. destruct seed as [s|];
        [eexists; apply string_app_assoc| exists t; reflexivity]. }
    clearbody p4. clear H3.
    destruct H4 as [t ->]. destruct fixed_camera.
    + rewrite string_app_assoc. apply string_prefix_app.
    + apply string_prefix_app.
  - reflexivity.
  - intros z. reflexivity.
  - reflexivity.
Qed.

Lemma split_char_no_sep (c : ascii) (s : string) :
  Str.contains (String c "") s = false -> Str.split_char c s = [s].
Proof.
  induction s as [|x s IH]; intros H; [reflexivity|].
  simpl in H. apply orb_false_iff in H as [Hp Hc].
  simpl. rewrite (IH Hc).
  destruct (Ascii.eqb_spec x c) as [->|Hne]; [|reflexivity].
  destruct (ascii_dec c c); [destruct s; discriminate Hp|congruence].
Qed.

Lemma split_char_app (c : ascii) (s t : string) :
  exists r l, Str.split_char c (s ++ String c t) = r :: l ++ Str.split_char c t.
Proof.
  induction s as [|x s IH]; simpl.
  - exists "", []. rewrite Ascii.eqb_refl. reflexivity.
  - destruct IH as (r & l & ->).
    destruct (Ascii.eqb x c); [exists "", (r :: l); reflexivity|].
    exists (String x r), l. reflexivity.
Qed.

Lemma find_handler_task_status (path : string) :
  String.prefix "/video_task_status/" path = true ->
  T2V.find_handler path = Some T2V.HVideoTaskStatus.
Proof.
  intros H. unfold T2V.find_handler. cbn [find T2V.routes fst].
  destruct (String.eqb path "/text_to_video") eqn:E1;
    [apply String.eqb_eq in E1; subst path; discriminate H|].
  destruct (String.eqb path "/image_to_video_advanced") eqn:E2;
    [apply String.eqb_eq in E2; subst path; discriminate H|].
  rewrite H.
  change (Routing.endswith "/text_to_video" "/") with false.
  change (Routing.endswith "/image_to_video_advanced" "/") with false.
  change (Routing.endswith "/video_task_status/" "/") with true.
  cbn [orb andb]. destruct (String.eqb path "/video_task_status/"); reflexivity.
Qed.

(** X16. The task-status route of [TextToVideoModule]: every path that
    starts with [/video_task_status/] is handed to
    [handle_video_task_status]; that handler answers 405 to a method
    other than GET, and for a GET takes the task id after the last [/]:
    an empty id gives 400 [缺少任务ID], any other id is queried. *)
Theorem t2v_task_status_routing (path method s id : string) :
  (String.prefix "/video_task_status/" path = true ->
   T2V.handle_request path = inl T2V.HVideoTaskStatus) /\
  (String.eqb method "GET" = false ->
   T2V.video_task_status_target path method =
   inl (Base.send_error_response T2V.self_name 405 "只支持GET方法")) /\
  (Str.contains "/" id = false ->
   T2V.video_task_status_target (s ++ "/" ++ id) "GET" =
   if String.eqb id "" then inl (Base.send_error_response T2V.self_name 400 "缺少任务ID")
   else inr id).
Proof.
  split; [|split].
  - intros H. unfold T2V.handle_request. rewrite find_handler_task_status by exact H.
    reflexivity.
  - intros H. unfold T2V.video_task_status_target. rewrite H. reflexivity.
  - intros H. unfold T2V.video_task_status_target. cbn [negb String.eqb Ascii.eqb Bool.eqb].
    replace (last (Str.split_char "/"%char (s ++ "/" ++ id)) "") with id.
    + reflexivity.
    + destruct (split_char_app "/"%char s id) as (r & l & Hs).
      change ("/" ++ id) with (String "/"%char id). rewrite Hs.
      rewrite (split_char_no_sep "/"%char id H).
      change (r :: l ++ [id])%list with ((r :: l) ++ [id])%list. rewrite last_last. reflexivity.
Qed.

(** X17. [handle_upload_video_image] uploads at most once, and only for a
    POST with a multipart content type whose first [image] field is no
    larger than [max_file_size]; it then uploads that field's content and
    filename. A 200 answer comes only from a successful upload and carries
    the URL the uploader returned. *)
Theorem t2v_upload_image_guard (upload : string -> option (list Z) -> Str.upload_result)
    (max_file_size : Z) (method : string) (headers : list (string * list Z))
    (body : option string) :
  let res := T2V.upload_video_image upload max_file_size method headers body in
  (snd res = [] \/
   (method = "POST" /\
    zs_contains (str "multipart/form-data") (Str.content_type_of headers) = true /\
    exists fi rest,
      py_get zs_eqb (t2v_parse_multipart_form_data (Some (Str.content_type_of headers)) body)
        (str "image") = Some (fi :: rest) /\
      (Z.of_nat (String.length (content fi)) <= max_file_size)%Z /\
      snd res = [(content fi, filename fi)])) /\
  (Base.status_code (fst res) = 200 ->
   exists c fn url,
     snd res = [(c, fn)] /\ upload c fn = Str.Uploaded url /\
     jget (Base.body (fst res)) "url" = Some (JStr url)).
Proof.
  unfold T2V.upload_video_image.
  destruct (String.eqb method "POST") eqn:Em; simpl negb; cbv iota;
    [|split; [left; reflexivity|intros H; discriminate H]].
  apply String.eqb_eq in Em.
  destruct (zs_contains (str "multipart/form-data") (Str.content_type_of headers)) eqn:Ec;
    simpl negb; cbv iota; [|split; [left; reflexivity|intros H; discriminate H]].
  destruct (py_get zs_eqb (t2v_parse_multipart_form_data (Some (Str.content_type_of headers)) body)
              (str "image")) as [[|fi rest]|] eqn:Eg;
    [split; [left; reflexivity|intros H; discriminate H]| |
     split; [left; reflexivity|intros H; discriminate H]].
  destruct (Z.ltb max_file_size (Z.of_nat (String.length (content fi)))) eqn:El;
    [split; [left; reflexivity|intros H; discriminate H]|].
  apply Z.ltb_ge in El.
  destruct (upload (content fi) (filename fi)) as [url|err] eqn:Eu.
  - split.
    + right. split; [exact Em|]. split; [reflexivity|]. exists fi, rest. auto.
    + intros _. exists (content fi), (filename fi), url. auto.
  - split.
    + right. split; [exact Em|]. split; [reflexivity|]. exists fi, rest. auto.
    + intros H. discriminate H.
Qed.

End T2VFacts.

(** ** src/modules/image_to_video_module.py: the uploads *)

Module I2VFacts.

Import Py Multipart.

(** The files among the values of one field, in order. *)
Definition value_files (vs : list i2v_value) : list (string * list Z) :=
  flat_map (fun v => match v with I2VFile c fn => [(c, fn)] | I2VText _ => [] end) vs.

(** The files of the fields whose name starts with [image_file], in the
    order of the form. *)
Definition image_files (form_data : i2v_form) : list (string * list Z) :=
  flat_map (fun nv => if zs_prefix (str "image_file") (fst nv) then value_files (snd nv)
                      else []) form_data.

Section Upload.

Variable upload : string -> list Z -> Str.upload_result.
Variable max_file_size : Z.

Definition early_response (r : Base.module_response) : Prop :=
  r = I2V.too_large max_file_size \/
  exists err, r = Base.send_error_response I2V.self_name 500 ("上传图片失败: " ++ err).

Lemma upload_values_spec (vs : list i2v_value) (urls : list string)
    (log : list (string * list Z)) o u l :
  I2V.upload_values upload max_file_size vs urls log = (o, u, l) ->
  exists ext rest,
    l = (log ++ ext)%list /\ value_files vs = (ext ++ rest)%list /\
    (o = None -> rest = [] /\ length u = length urls + length ext) /\
    (forall r, o = Some r -> early_response r).
Proof.
  revert urls log. induction vs as [|v vs IH]; intros urls log Hr; simpl in Hr.
  - inversion Hr; subst. exists [], []. rewrite app_nil_r.
    split; [reflexivity|]. split; [reflexivity|]. split.
    + intros _. split; [reflexivity|]. simpl. lia.
    + intros r Hs. discriminate Hs.
  - destruct v as [c fn|t].
    + destruct (Z.ltb max_file_size (Z.of_nat (String.length c))).
      * inversion Hr; subst. exists [], ((c, fn) :: value_files vs).
        rewrite app_nil_r. split; [reflexivity|]. split; [reflexivity|]. split.
        -- intros Hs. discriminate Hs.
        -- intros r Hs. inversion Hs. left. reflexivity.
      * destruct (upload c fn) as [url|err].
        -- destruct (IH _ _ Hr) as (ext & rest & Hl & Hv & Hn & Hs).
           exists ((c, fn) :: ext), rest. split; [rewrite Hl, <- app_assoc; reflexivity|].
           split; [simpl; rewrite Hv; reflexivity|]. split; [|exact Hs].
           intros Ho. destruct (Hn Ho) as [-> Hlen]. split; [reflexivity|].
           rewrite Hlen, length_app. simpl. lia.
        -- inversion Hr; subst. exists [(c, fn)], (value_files vs).
           split; [reflexivity|]. split; [reflexivity|]. split.
           ++ intros Hs. discriminate Hs.
           ++ intros r Hs. inversion Hs. right. exists err. reflexivity.
    + exact (IH _ _ Hr).
Qed.

Lemma upload_fields_spec (fields : i2v_form) (urls : list string)
    (log : list (string * list Z)) o u l :
  I2V.upload_fields upload max_file_size fields urls log = (o, u, l) ->
  exists ext rest,
    l = (log ++ ext)%list /\ image_files fields = (ext ++ rest)%list /\
    (o = None -> rest = [] /\ length u = length urls + length ext) /\
    (forall r, o = Some r -> early_response r).
Proof.
  revert urls log. induction fields as [|[name fl] fs IH]; intros urls log Hr;
    cbn [I2V.upload_fields] in Hr.
  - inversion Hr; subst. exists [], []. rewrite app_nil_r.
    split; [reflexivity|]. split; [reflexivity|]. split.
    + intros _. split; [reflexivity|]. simpl. lia.
    + intros r Hs. discriminate Hs.
  - change (image_files ((name, fl) :: fs)) with
      ((if zs_prefix (str "image_file") name then value_files fl else []) ++
       image_files fs)%list.
    destruct (zs_prefix (str "image_file") name).
    + destruct (I2V.upload_values upload max_file_size fl urls log) as [[o1 u1] l1] eqn:Ev.
      destruct (upload_values_spec _ _ _ _ _ _ Ev) as (ext1 & rest1 & Hl1 & Hv1 & Hn1 & Hs1).
      destruct o1 as [r1|].
      * inversion Hr; subst. exists ext1, (rest1 ++ image_files fs)%list.
        split; [reflexivity|]. split; [rewrite Hv1, app_assoc; reflexivity|]. split.
        -- intros Hs. discriminate Hs.
        -- intros r Hs. inversion Hs; subst. apply Hs1. reflexivity.
      * destruct (Hn1 eq_refl) as [-> Hlen1]. rewrite app_nil_r in Hv1.
        destruct (IH _ _ Hr) as (ext2 & rest2 & Hl2 & Hv2 & Hn2 & Hs2).
        exists (ext1 ++ ext2)%list, rest2.
        split; [rewrite Hl2, Hl1, app_assoc; reflexivity|].
        split; [rewrite Hv1, Hv2, app_assoc; reflexivity|]. split; [|exact Hs2].
        intros Ho. destruct (Hn2 Ho) as [-> Hlen2]. split; [reflexivity|].
        rewrite Hlen2, Hlen1, length_app. lia.
    + exact (IH _ _ Hr).
Qed.

End Upload.

Ltac distinct_responses :=
  let H := fresh in
  intros H;
  unfold I2V.too_large, Base.send_error_response, Base.send_json_response in H;
  injection H; intros; discriminate.

(** X18. [handle_upload_and_create_task] uploads the files of the
    [image_file*] fields in the order of the form and stops at the first
    one that is too large or fails to upload, so the uploads made are
    always a prefix of those files. When the task is submitted, every one
    of them was uploaded and the URLs are one per file, at least one and at
    most [max_images]. The count limit is checked only after the uploads:
    when it rejects the request with [最多支持...张参考图], every file has
    already been uploaded. *)
Theorem i2v_uploads_before_count_check (upload : string -> list Z -> Str.upload_result)
    (max_file_size max_images : Z) (config_api_key : list Z)
    (headers : list (string * list Z)) (body : option string) :
  let res := I2V.upload_and_create_task upload max_file_size max_images config_api_key
               headers body in
  let files := image_files (i2v_parse_multipart_form_data
                              (Some (Str.content_type_of headers)) body) in
  (exists rest, files = (snd res ++ rest)%list) /\
  (forall api_key prompt urls, fst res = I2V.Submit api_key prompt urls ->
     snd res = files /\ length urls = length files /\ 1 <= length urls /\
     (Z.of_nat (length urls) <= max_images)%Z) /\
  (fst res = I2V.Reject (Base.send_error_response I2V.self_name 400
                           ("最多支持" ++ Dec.z_to_string max_images ++ "张参考图")) ->
   snd res = files).
Proof.
  intros res files. subst res files. unfold I2V.upload_and_create_task.
  set (ct := Str.content_type_of headers).
  set (fd := i2v_parse_multipart_form_data (Some ct) body).
  destruct (zs_contains (str "multipart/form-data") ct); simpl negb; cbv iota.
  2:{ split; [exists (image_files fd); reflexivity|]. split.
      - intros a p u H. discriminate H.
      - distinct_responses. }
  set (api_key := match config_api_key with
                  | [] => I2V.first_value fd (str "api_key")
                  | _ => I2VText config_api_key end).
  set (prompt := I2V.first_value fd (str "prompt")).
  destruct (negb (I2V.truthy api_key) || negb (I2V.truthy prompt)); cbv iota.
  { split; [exists (image_files fd); reflexivity|]. split.
    - intros a p u H. discriminate H.
    - distinct_responses. }
  destruct (I2V.upload_fields upload max_file_size fd [] []) as [[o u] l] eqn:Ef.
  destruct (upload_fields_spec _ _ _ _ _ _ _ _ Ef) as (ext & rest & Hl & Hv & Hn & Hs).
  simpl in Hl. subst l.
  destruct o as [r|].
  - simpl. split; [exists rest; exact Hv|]. split.
    + intros a p us H. discriminate H.
    + intros H. injection H as ->.
      destruct (Hs _ eq_refl) as [Hr|[err Hr]]; revert Hr; distinct_responses.
  - destruct (Hn eq_refl) as [-> Hlen]. rewrite app_nil_r in Hv. simpl in Hlen.
    destruct (Nat.eqb (length u) 0) eqn:E0; cbv iota.
    + simpl. split; [exists []; rewrite app_nil_r; exact Hv|]. split.
      * intros a p us H. discriminate H.
      * distinct_responses.
    + destruct (Z.ltb max_images (Z.of_nat (length u))) eqn:Em; simpl.
      * split; [exists []; rewrite app_nil_r; exact Hv|]. split.
        -- intros a p us H. discriminate H.
        -- intros _. symmetry. exact Hv.
      * split; [exists []; rewrite app_nil_r; exact Hv|]. split.
        -- intros a p us H. injection H as _ _ <-.
           apply Nat.eqb_neq in E0. apply Z.ltb_ge in Em.
           split; [symmetry; exact Hv|]. rewrite Hv. split; [exact Hlen|]. split; [lia|].
           exact Em.
        -- intros H. symmetry. exact Hv.
Qed.

End I2VFacts.

(** ** src/modules/video_comprehension_module.py *)

Module VCFacts.

Import Py Multipart VideoComprehension.

(** X19. [handle_upload_video] reads the boundary from the lowercase
    [content-type] header only, and uploads at most once: only when the
    first [video] value is a file whose lowercased name ends in one of
    [.mp4], [.avi], [.mov], [.mkv], [.webm] and whose content is at most
    100 MB, and then with that content and filename. A [video] field sent
    as a plain value is answered with 400 [视频文件格式错误] and nothing is
    uploaded. *)
Theorem vc_upload_guard (py_lower_z : list Z -> list Z)
    (upload : string -> list Z -> Str.upload_result)
    (headers : list (string * list Z)) (body : option string) :
  let res := VC.handle_upload_video py_lower_z upload headers body in
  let form_data := VC.vc_parse_multipart_form_data
                     (Some (Str.header headers "content-type")) body in
  (snd res = [] \/
   exists c fn rest,
     py_get zs_eqb form_data (str "video") = Some (VC.VCFile c fn :: rest) /\
     existsb (fun ext => VC.zs_endswith (py_lower_z fn) (str ext)) VC.video_exts = true /\
     (Z.of_nat (String.length c) <= VC.max_video_size)%Z /\
     snd res = [(c, fn)]) /\
  (forall t rest, py_get zs_eqb form_data (str "video") = Some (VC.VCText t :: rest) ->
     res = (Base.send_error_response VC.self_name 400 "视频文件格式错误", [])).
Proof.
  intros res form_data. subst res form_data. unfold VC.handle_upload_video.
  destruct (py_get zs_eqb (VC.vc_parse_multipart_form_data
                             (Some (Str.header headers "content-type")) body) (str "video"))
    as [[|[c fn|t] rest]|] eqn:Eg.
  - split; [left; reflexivity|]. intros t rest H. discriminate H.
  - split; [|intros t rest' H; discriminate H].
    destruct (existsb (fun ext => VC.zs_endswith (py_lower_z fn) (str ext)) VC.video_exts)
      eqn:Ee; simpl negb; cbv iota; [|left; reflexivity].
    destruct (Z.ltb VC.max_video_size (Z.of_nat (String.length c))) eqn:El;
      [left; reflexivity|].
    apply Z.ltb_ge in El. right. exists c, fn, rest.
    split; [reflexivity|]. split; [exact Ee|]. split; [exact El|].
    destruct (upload c fn); reflexivity.
  - split; [left; reflexivity|]. intros t' rest' _. reflexivity.
  - split; [left; reflexivity|]. intros t rest H. discriminate H.
Qed.

(** X20. The API key of [handle_video_comprehension_gen_text]: the
    configured key, when set, is the one sent in [Authorization], even when
    the request carries its own; the request's key is used only when no key
    is configured, and with neither the answer is 400 [API Key 不能为空].
    With a key, an empty prompt is answered with 400 [提示词不能为空]. *)
Theorem vc_config_key_wins (cfg : vc_config) (api_key video_url prompt : string)
    (fps : json) :
  (config_api_key cfg <> "" -> video_url <> "" -> prompt <> "" ->
   exists req, validate_and_build cfg api_key video_url prompt fps = inr req /\
     In ("Authorization", "Bearer " ++ config_api_key cfg) (req_headers req)) /\
  (config_api_key cfg = "" -> api_key <> "" -> video_url <> "" -> prompt <> "" ->
   exists req, validate_and_build cfg api_key video_url prompt fps = inr req /\
     In ("Authorization", "Bearer " ++ api_key) (req_headers req)) /\
  (config_api_key cfg = "" -> api_key = "" ->
   validate_and_build cfg api_key video_url prompt fps =
   inl (Base.send_error_response "video_comprehension" 400 "API Key 不能为空")) /\
  (api_key <> "" \/ config_api_key cfg <> "" -> video_url <> "" -> prompt = "" ->
   validate_and_build cfg api_key video_url prompt fps =
   inl (Base.send_error_response "video_comprehension" 400 "提示词不能为空")).
Proof.
  assert (Hne : forall s, s <> "" -> String.eqb s "" = false)
    by (intros s Hs; apply String.eqb_neq; exact Hs).
  split; [|split; [|split]].
  - intros Hc Hv Hp. unfold validate_and_build.
    rewrite (Hne _ Hc), (Hne _ Hv), (Hne _ Hp), andb_false_r.
    eexists. split; [reflexivity|]. simpl. right. left. reflexivity.
  - intros Hc Ha Hv Hp. unfold validate_and_build.
    rewrite Hc, (Hne _ Ha), (Hne _ Hv), (Hne _ Hp). simpl.
    eexists. split; [reflexivity|]. simpl. right. left. reflexivity.
  - intros Hc Ha. unfold validate_and_build. rewrite Hc, Ha. reflexivity.
  - intros Hk Hv Hp. unfold validate_and_build. rewrite (Hne _ Hv). subst prompt.
    destruct Hk as [Ha|Hc].
    + rewrite (Hne _ Ha). reflexivity.
    + rewrite (Hne _ Hc), andb_false_r. reflexivity.
Qed.

End VCFacts.
